(** * Stock price analysis server: a shallow embedding of [stock_mcp_server.py]

    The development follows the Python module function by function:
    [parse_date], [get_stock_data], [plot_stock_price], [compare_stocks]
    and [read_stock_resource].  Python values that the module passes around
    are modelled as they are at run time: strings as [string], dictionaries
    as finite maps from strings to values, [numpy.float64] numbers as IEEE
    binary64 floats, exceptions as an explicit error monad.  What the module
    obtains from Yahoo Finance, pandas' averaging and matplotlib is taken as
    a parameter of the development. *)

From Stdlib Require Import ZArith String Ascii List Bool Lia.
From Stdlib Require Import Floats.
From stdpp Require Import gmap strings pretty.

Local Open Scope Z_scope.

(** * Exceptions *)

(** The classes of [Exception] the module can meet.  [except Exception]
    catches every one of them; the interpreter's exit signals, which are not
    [Exception]s, are not failures of a collaborator and are not modelled. *)
Inductive exn_class : Type :=
  | ValueError
  | IndexError
  | OverflowError
  | TypeError
  | KeyError
  | OtherError.

(** An exception instance: its class and the text [str(e)] gives. *)
Record exn : Type := Exn { exn_kind : exn_class; exn_str : string }.

(** A Python computation either returns a value or raises. *)
Inductive outcome (A : Type) : Type :=
  | Return (a : A)
  | Raise (e : exn).
Arguments Return {A} a.
Arguments Raise {A} e.

Definition bind {A B : Type} (c : outcome A) (k : A -> outcome B) : outcome B :=
  match c with
  | Return a => k a
  | Raise e => Raise e
  end.

Notation "x <- c ;; k" := (bind c (fun x => k))
  (at level 100, c at next level, right associativity).

(** [try: body except Exception as e: handler e]. *)
Definition try_except {A : Type} (body : outcome A) (handler : exn -> outcome A)
  : outcome A :=
  match body with
  | Return a => Return a
  | Raise e => handler e
  end.

(** [try: body except (classes) : handler], other classes propagate. *)
Definition try_except_in {A : Type} (catches : exn_class -> bool)
    (body : outcome A) (handler : exn -> outcome A) : outcome A :=
  match body with
  | Return a => Return a
  | Raise e => if catches (exn_kind e) then handler e else Raise e
  end.

Definition returns {A : Type} (c : outcome A) : Prop :=
  exists a, c = Return a.

(** * Python strings and [int(str)] *)

(** A text is modelled by its code points, one [ascii] each: the texts with
    every code point below 256.  Among these the decimal digits are the ten
    ASCII ones. *)
Module PyStr.

Definition code (c : ascii) : Z := Z.of_nat (nat_of_ascii c).

(** The blanks [int] skips around a literal: the white space of C, that is
    tab, line feed, vertical tab, form feed, carriage return and the space,
    and U+0085 and U+00A0, which [int] turns into a space first.  U+001C to
    U+001F, blanks for [str.isspace], are not skipped: [int] refuses them. *)
Definition is_space (c : ascii) : bool :=
  let n := code c in
  ((9 <=? n) && (n <=? 13)) || (n =? 32) || (n =? 133) || (n =? 160).

Definition is_digit (c : ascii) : bool :=
  let n := code c in (48 <=? n) && (n <=? 57).

Definition digit_val (c : ascii) : Z := code c - 48.

Definition digit_char (d : Z) : ascii := ascii_of_nat (Z.to_nat (48 + d)).

Fixpoint all_digits (s : string) : bool :=
  match s with
  | EmptyString => true
  | String c s' => is_digit c && all_digits s'
  end.

(** [s[:n]] and [s[n:]]: a slice never raises, it is cut at the end. *)
Fixpoint take (n : nat) (s : string) : string :=
  match n, s with
  | S n', String c s' => String c (take n' s')
  | _, _ => EmptyString
  end.

Fixpoint drop (n : nat) (s : string) : string :=
  match n, s with
  | S n', String c s' => drop n' s'
  | _, _ => s
  end.

(** [s[i:j]] for [0 <= i <= j]. *)
Definition slice (i j : nat) (s : string) : string := take (j - i) (drop i s).

Fixpoint lstrip (s : string) : string :=
  match s with
  | String c s' => if is_space c then lstrip s' else s
  | EmptyString => EmptyString
  end.

Fixpoint rev_app (s acc : string) : string :=
  match s with
  | EmptyString => acc
  | String c s' => rev_app s' (String c acc)
  end.

Definition rev (s : string) : string := rev_app s EmptyString.

Definition rstrip (s : string) : string := rev (lstrip (rev s)).

(** [s.startswith(p)] *)
Fixpoint startswith (s p : string) {struct p} : bool :=
  match p, s with
  | EmptyString, _ => true
  | String a p', String b s' => Ascii.eqb a b && startswith s' p'
  | String _ _, EmptyString => false
  end.

Definition strip (s : string) : string := rstrip (lstrip s).

(** The digits of a decimal literal, a single underscore allowed between
    two digits; [prev] tells whether the previous character was a digit. *)
Fixpoint parse_digits (acc : Z) (prev : bool) (s : string) : option Z :=
  match s with
  | EmptyString => if prev then Some acc else None
  | String c s' =>
      if is_digit c then parse_digits (10 * acc + digit_val c) true s'
      else if Ascii.eqb c "_"%char then
        (if prev then parse_digits acc false s' else None)
      else None
  end.

Fixpoint count_digits (s : string) : nat :=
  match s with
  | EmptyString => O
  | String c s' => if is_digit c then S (count_digits s') else count_digits s'
  end.

(** CPython's default limit on the digits of a converted string. *)
Definition max_str_digits : nat := 4300.

Definition invalid_literal (s : string) : exn :=
  Exn ValueError ("invalid literal for int() with base 10: '" +:+ s +:+ "'").

(** [int(s)] for a [str]: surrounding whitespace is dropped, one sign is
    allowed, then a decimal literal. *)
Definition int (s : string) : outcome Z :=
  let body := strip s in
  let '(neg, ds) :=
    match body with
    | String "-"%char r => (true, r)
    | String "+"%char r => (false, r)
    | _ => (false, body)
    end in
  if (max_str_digits <? count_digits ds)%nat then
    Raise (Exn ValueError
      "Exceeds the limit (4300 digits) for integer string conversion")
  else
    match parse_digits 0 false ds with
    | Some v => Return (if neg then - v else v)
    | None => Raise (invalid_literal s)
    end.

End PyStr.

(** * [datetime.datetime] *)

Module Datetime.

Record datetime : Type := Build { year : Z; month : Z; day : Z }.

Definition is_leap (y : Z) : bool :=
  (y mod 4 =? 0) && (negb (y mod 100 =? 0) || (y mod 400 =? 0)).

Definition days_in_month (y m : Z) : Z :=
  if m =? 2 then (if is_leap y then 29 else 28)
  else if (m =? 4) || (m =? 6) || (m =? 9) || (m =? 11) then 30
  else 31.

Definition MINYEAR : Z := 1.
Definition MAXYEAR : Z := 9999.

(** The constructor takes its arguments as C [int]s. *)
Definition fits_c_int (z : Z) : bool := (- 2 ^ 31 <=? z) && (z <? 2 ^ 31).

Definition c_int_overflow (z : Z) : exn :=
  Exn OverflowError
    (if (z <? - 2 ^ 63) || (2 ^ 63 <=? z) then
       "Python int too large to convert to C long"
     else if z <? 0 then "signed integer is less than minimum"
     else "signed integer is greater than maximum").

(** [datetime(year, month, day)]. *)
Definition make (y m d : Z) : outcome datetime :=
  if negb (fits_c_int y) then Raise (c_int_overflow y)
  else if negb (fits_c_int m) then Raise (c_int_overflow m)
  else if negb (fits_c_int d) then Raise (c_int_overflow d)
  else if negb ((MINYEAR <=? y) && (y <=? MAXYEAR)) then
    Raise (Exn ValueError ("year " +:+ pretty y +:+ " is out of range"))
  else if negb ((1 <=? m) && (m <=? 12)) then
    Raise (Exn ValueError "month must be in 1..12")
  else if negb ((1 <=? d) && (d <=? days_in_month y m)) then
    Raise (Exn ValueError "day is out of range for month")
  else Return (Build y m d).

Definition digit (z : Z) : string :=
  String (PyStr.digit_char (z mod 10)) EmptyString.

(** [%Y] as the C library writes it: the year as a decimal number, with no
    padding (a [datetime] has a year from 1 to 9999, so at most four digits);
    [%m] and [%d]: month and day on two digits. *)
Definition fmt_Y (y : Z) : string :=
  if y <? 10 then digit y
  else if y <? 100 then digit (y / 10) +:+ digit y
  else if y <? 1000 then digit (y / 100) +:+ digit (y / 10) +:+ digit y
  else digit (y / 1000) +:+ digit (y / 100) +:+ digit (y / 10) +:+ digit y.
Definition fmt_2 (n : Z) : string := digit (n / 10) +:+ digit n.

(** [dt.strftime('%Y-%m-%d')]. *)
Definition strftime_Ymd (dt : datetime) : string :=
  fmt_Y (year dt) +:+ "-" +:+ fmt_2 (month dt) +:+ "-" +:+ fmt_2 (day dt).

End Datetime.

(** * [parse_date] *)

Definition invalid_date_format (date_str : string) : exn :=
  Exn ValueError
    ("Invalid date format: " +:+ date_str +:+ ". Expected mmddyyyy format.").

Definition is_value_or_index_error (k : exn_class) : bool :=
  match k with
  | ValueError | IndexError => true
  | _ => false
  end.

Definition parse_date (date_str : string) : outcome string :=
  try_except_in is_value_or_index_error
    (let month := PyStr.slice 0 2 date_str in
     let day := PyStr.slice 2 4 date_str in
     let year := PyStr.drop 4 date_str in
     y <- PyStr.int year ;;
     m <- PyStr.int month ;;
     d <- PyStr.int day ;;
     dt <- Datetime.make y m d ;;
     Return (Datetime.strftime_Ymd dt))
    (fun _ => Raise (invalid_date_format date_str)).

(** * [numpy.float64] arithmetic *)

(** The prices of a history frame are [numpy.float64] scalars, that is IEEE
    binary64 numbers: dividing by zero gives an infinity or a NaN with a
    warning, not an exception. *)
Module Np.

Definition of_Z (z : Z) : float := SF2Prim (binary_normalize prec emax z 0 false).

Definition is_finite (x : float) : bool := negb (is_nan x || is_infinity x).


Definition two52 : float := 4503599627370496%float.

(** [numpy.rint]: the nearest integer, ties to even, the sign kept. *)
Definition rint (x : float) : float :=
  if (abs x <? two52)%float then
    let r := (abs x + two52 - two52)%float in
    if get_sign x then (- r)%float else r
  else x.

(** [round(x, ndigits)] on a [numpy.float64] for [ndigits >= 0]: numpy scales
    by the power of ten, rounds to the nearest integer and scales back. *)
Definition round (x : float) (ndigits : Z) : float :=
  let p := of_Z (10 ^ ndigits) in (rint (x * p) / p)%float.

(** [int(x)]: truncation toward zero; NaN and the infinities raise. *)
Definition to_int (x : float) : outcome Z :=
  match Prim2SF x with
  | S754_nan => Raise (Exn ValueError "cannot convert float NaN to integer")
  | S754_infinity _ =>
      Raise (Exn OverflowError "cannot convert float infinity to integer")
  | S754_zero _ => Return 0
  | S754_finite s m e =>
      let a := Z.shiftl (Zpos m) e in Return (if s then - a else a)
  end.

End Np.

(** * pandas series and frames *)

Module Pd.

(** One row of the frame [Ticker.history] returns. *)
Record Row : Type := mkRow {
  Date : string;
  Open : float;
  High : float;
  Low : float;
  Close : float;
  Volume : Z
}.

(** [data.empty] *)
Definition empty (data : list Row) : bool :=
  match data with
  | [] => true
  | _ :: _ => false
  end.

Definition out_of_bounds : exn :=
  Exn IndexError "single positional indexer is out-of-bounds".

(** [series.iloc[0]] and [series.iloc[-1]] *)
Definition iloc_first {A : Type} (series : list A) : outcome A :=
  match series with
  | [] => Raise out_of_bounds
  | x :: _ => Return x
  end.

Definition iloc_last {A : Type} (series : list A) : outcome A :=
  match last series with
  | None => Raise out_of_bounds
  | Some x => Return x
  end.

(** [series.max()] and [series.min()]: NaN entries are skipped; NaN when
    nothing is left.  Of two entries that compare equal (the two zeros) the
    later one is kept. *)
Definition max2 (acc x : float) : float :=
  if is_nan x then acc
  else if is_nan acc then x
  else if (x <? acc)%float then acc else x.

Definition min2 (acc x : float) : float :=
  if is_nan x then acc
  else if is_nan acc then x
  else if (acc <? x)%float then acc else x.

Definition max (series : list float) : float := fold_left max2 series nan.
Definition min (series : list float) : float := fold_left min2 series nan.

End Pd.

(** * Python values and dictionaries *)

#[warnings="-register-all"]
Inductive value : Type :=
  | VNone
  | VStr (s : string)
  | VInt (z : Z)
  | VFloat (f : float)
  | VDict (d : gmap string value).

(** [key in d], [d.get(key, default)] and [d[key]] *)
Definition contains (d : gmap string value) (key : string) : bool :=
  match d !! key with
  | Some _ => true
  | None => false
  end.

Definition get (d : gmap string value) (key : string) (dflt : value) : value :=
  default dflt (d !! key).

Definition getitem (d : gmap string value) (key : string) : outcome value :=
  match d !! key with
  | Some v => Return v
  | None => Raise (Exn KeyError ("'" +:+ key +:+ "'"))
  end.

Definition is_str (v : value) : bool :=
  match v with
  | VStr _ => true
  | _ => false
  end.

Definition type_name (v : value) : string :=
  match v with
  | VNone => "NoneType"
  | VStr _ => "str"
  | VInt _ => "int"
  | VFloat _ => "float"
  | VDict _ => "dict"
  end.

(** The number behind a value in an arithmetic expression or comparison. *)
Definition as_float (v : value) : outcome float :=
  match v with
  | VFloat f => Return f
  | VInt z => Return (Np.of_Z z)
  | _ => Raise (Exn TypeError
           ("unsupported operand type(s): '" +:+ type_name v +:+ "'"))
  end.

(** [a > b], [a - b] and [round(a, 2)] on values *)
Definition value_gt (a b : value) : outcome bool :=
  x <- as_float a ;; y <- as_float b ;; Return (y <? x)%float.

Definition value_sub (a b : value) : outcome value :=
  x <- as_float a ;; y <- as_float b ;; Return (VFloat (x - y)%float).

Definition value_round (a : value) (ndigits : Z) : outcome value :=
  x <- as_float a ;; Return (VFloat (Np.round x ndigits)).

(** * [base64.b64encode] *)

Module Base64.

(** Six bits, the most significant first. *)
Definition sextet : Type := (bool * bool * bool * bool * bool * bool)%type.

Definition index (s : sextet) : nat :=
  let '(b5, b4, b3, b2, b1, b0) := s in
  (32 * Nat.b2n b5 + 16 * Nat.b2n b4 + 8 * Nat.b2n b3
   + 4 * Nat.b2n b2 + 2 * Nat.b2n b1 + Nat.b2n b0)%nat.

Definition alphabet : string :=
  "ABCDEFGHIJKLMNOPQRSTUVWXYZabcdefghijklmnopqrstuvwxyz0123456789+/".

Definition pad : ascii := "="%char.

Definition char (s : sextet) : ascii :=
  match String.get (index s) alphabet with
  | Some c => c
  | None => pad
  end.

(** Three bytes give four characters; a last group of one or two bytes is
    filled with zero bits and padded with [=]. *)
Fixpoint b64encode (bs : list Byte.byte) : string :=
  match bs with
  | [] => EmptyString
  | x :: [] =>
      let '(x0, (x1, (x2, (x3, (x4, (x5, (x6, x7))))))) := Byte.to_bits x in
      String (char (x7, x6, x5, x4, x3, x2))
        (String (char (x1, x0, false, false, false, false))
           (String pad (String pad EmptyString)))
  | x :: y :: [] =>
      let '(x0, (x1, (x2, (x3, (x4, (x5, (x6, x7))))))) := Byte.to_bits x in
      let '(y0, (y1, (y2, (y3, (y4, (y5, (y6, y7))))))) := Byte.to_bits y in
      String (char (x7, x6, x5, x4, x3, x2))
        (String (char (x1, x0, y7, y6, y5, y4))
           (String (char (y3, y2, y1, y0, false, false))
              (String pad EmptyString)))
  | x :: y :: z :: rest =>
      let '(x0, (x1, (x2, (x3, (x4, (x5, (x6, x7))))))) := Byte.to_bits x in
      let '(y0, (y1, (y2, (y3, (y4, (y5, (y6, y7))))))) := Byte.to_bits y in
      let '(z0, (z1, (z2, (z3, (z4, (z5, (z6, z7))))))) := Byte.to_bits z in
      String (char (x7, x6, x5, x4, x3, x2))
        (String (char (x1, x0, y7, y6, y5, y4))
           (String (char (y3, y2, y1, y0, z7, z6))
              (String (char (z5, z4, z3, z2, z1, z0)) (b64encode rest))))
  end.

(** The grammar of padded base64 text (RFC 4648, section 4): groups of four
    characters of the alphabet, the last group ending in at most two [=]. *)
Definition is_b64_char (c : ascii) : bool :=
  let n := PyStr.code c in
  ((65 <=? n) && (n <=? 90)) || ((97 <=? n) && (n <=? 122))
  || ((48 <=? n) && (n <=? 57)) || (n =? 43) || (n =? 47).

Definition is_pad (c : ascii) : bool := Ascii.eqb c pad.

Fixpoint valid_base64 (s : string) : bool :=
  match s with
  | EmptyString => true
  | String a (String b (String c (String d rest))) =>
      is_b64_char a && is_b64_char b
      && match rest with
         | EmptyString =>
             (is_b64_char c && (is_b64_char d || is_pad d))
             || (is_pad c && is_pad d)
         | _ => is_b64_char c && is_b64_char d && valid_base64 rest
         end
  | _ => false
  end.

(** The decoder of RFC 4648: the six bits of a character of the alphabet,
    and the bytes of a padded text. *)
Fixpoint index_of (c : ascii) (s : string) (i : nat) : option nat :=
  match s with
  | EmptyString => None
  | String a s' => if Ascii.eqb a c then Some i else index_of c s' (S i)
  end.

Definition sextet_of_index (n : nat) : sextet :=
  (Nat.testbit n 5, Nat.testbit n 4, Nat.testbit n 3,
   Nat.testbit n 2, Nat.testbit n 1, Nat.testbit n 0).

Definition value_of (c : ascii) : option sextet :=
  option_map sextet_of_index (index_of c alphabet O).

(** A byte from its bits, the most significant first. *)
Definition byte_of (b7 b6 b5 b4 b3 b2 b1 b0 : bool) : Byte.byte :=
  Byte.of_bits (b0, (b1, (b2, (b3, (b4, (b5, (b6, b7))))))).

Fixpoint decode (s : string) : option (list Byte.byte) :=
  match s with
  | EmptyString => Some []
  | String a (String b (String c (String d rest))) =>
      match value_of a, value_of b with
      | Some (a5, a4, a3, a2, a1, a0), Some (b5, b4, b3, b2, b1, b0) =>
          let x := byte_of a5 a4 a3 a2 a1 a0 b5 b4 in
          if is_pad c then
            match rest with
            | EmptyString => if is_pad d then Some [x] else None
            | _ => None
            end
          else
            match value_of c with
            | Some (c5, c4, c3, c2, c1, c0) =>
                let y := byte_of b3 b2 b1 b0 c5 c4 c3 c2 in
                if is_pad d then
                  match rest with
                  | EmptyString => Some [x; y]
                  | _ => None
                  end
                else
                  match value_of d with
                  | Some (d5, d4, d3, d2, d1, d0) =>
                      let z := byte_of c1 c0 d5 d4 d3 d2 d1 d0 in
                      option_map (fun tl => x :: y :: z :: tl) (decode rest)
                  | None => None
                  end
            | None => None
            end
      | _, _ => None
      end
  | _ => None
  end.

End Base64.

(** * Text formatting *)

(** [format(n, ',')] on the decimal digits of an integer: a comma before each
    group of three digits, counted from the right. *)
Fixpoint group3 (rev_digits : string) (k : nat) : string :=
  match rev_digits with
  | EmptyString => EmptyString
  | String c r =>
      match k, r with
      | S (S O), String _ _ => String c (String ","%char (group3 r O))
      | _, _ => String c (group3 r (S k))
      end
  end.

Definition group_thousands (z : Z) : string :=
  let body := PyStr.rev (group3 (PyStr.rev (pretty (Z.abs z))) O) in
  if z <? 0 then "-" +:+ body else body.

Definition NL : string := String (ascii_of_nat 10) EmptyString.

(** The text of the f-string of [read_stock_resource], by its fields. *)
Definition resource_text (ticker long_name sector industry price market_cap
    high low : string) : string :=
  NL +:+ "Stock Information for " +:+ ticker +:+ ":" +:+ NL
  +:+ "Company Name: " +:+ long_name +:+ NL
  +:+ "Sector: " +:+ sector +:+ NL
  +:+ "Industry: " +:+ industry +:+ NL
  +:+ "Current Price: $" +:+ price +:+ NL
  +:+ "Market Cap: $" +:+ market_cap +:+ NL
  +:+ "52 Week High: $" +:+ high +:+ NL
  +:+ "52 Week Low: $" +:+ low +:+ NL
  +:+ "        ".

(** * The server *)

Section Server.

(** The collaborators of the module.  Each may return or raise. *)

(** [yf.Ticker(ticker).history(start=..., end=...)] *)
Variable history : string -> string -> string -> outcome (list Pd.Row).

(** [yf.Ticker(ticker).info] *)
Variable ticker_info : string -> outcome (gmap string value).

(** [series.mean()] of a float column and of an integer column; the order in
    which pandas adds the entries is its own. *)
Variable mean : list float -> float.
Variable mean_int : list Z -> float.

(** The matplotlib calls of [plot_stock_price], from [plt.figure] to
    [buffer.getvalue()] and [plt.close()]: the bytes of the PNG file. *)
Variable render_png :
  string -> string -> string -> string -> list Pd.Row -> outcome (list Byte.byte).

(** [str(x)] and [format(x, ',')] of a float. *)
Variable float_str : float -> string.
Variable float_grouped : float -> string.

(** [str(d)] of a dictionary. *)
Variable dict_str : gmap string value -> string.

Definition no_data_message (ticker : string) : string :=
  "No data found for ticker " +:+ ticker +:+ " in the specified date range".

Definition get_stock_data (ticker name start_date end_date : string)
  : outcome (gmap string value) :=
  try_except
    (start_formatted <- parse_date start_date ;;
     end_formatted <- parse_date end_date ;;
     data <- history ticker start_formatted end_formatted ;;
     if Pd.empty data then
       Return {[ "error" := VStr (no_data_message ticker);
                 "ticker" := VStr ticker;
                 "name" := VStr name ]}
     else
       (* the values the dictionary is built from, in the order it reads them *)
       open0 <- Pd.iloc_first (map Pd.Open data) ;;
       close1 <- Pd.iloc_last (map Pd.Close data) ;;
       average_volume <- Np.to_int (mean_int (map Pd.Volume data)) ;;
       Return {[ "ticker" := VStr ticker;
                 "name" := VStr name;
                 "start_date" := VStr start_formatted;
                 "end_date" := VStr end_formatted;
                 "data_points" := VInt (Z.of_nat (length data));
                 "opening_price" := VFloat (Np.round open0 2);
                 "closing_price" := VFloat (Np.round close1 2);
                 "highest_price" := VFloat (Np.round (Pd.max (map Pd.High data)) 2);
                 "lowest_price" := VFloat (Np.round (Pd.min (map Pd.Low data)) 2);
                 "average_price" := VFloat (Np.round (mean (map Pd.Close data)) 2);
                 "price_change" := VFloat (Np.round (close1 - open0) 2);
                 "percentage_change" :=
                   VFloat (Np.round ((close1 / open0 - 1) * 100) 2);
                 "average_volume" := VInt average_volume ]})
    (fun e =>
       Return {[ "error" := VStr ("Failed to fetch data: " +:+ exn_str e);
                 "ticker" := VStr ticker;
                 "name" := VStr name ]}).

Definition png_prefix : string := "data:image/png;base64,".

Definition plot_stock_price (ticker name start_date end_date : string)
  : outcome string :=
  try_except
    (start_formatted <- parse_date start_date ;;
     end_formatted <- parse_date end_date ;;
     data <- history ticker start_formatted end_formatted ;;
     if Pd.empty data then Return (no_data_message ticker)
     else
       png <- render_png ticker name start_formatted end_formatted data ;;
       let plot_base64 := Base64.b64encode png in
       Return (png_prefix +:+ plot_base64))
    (fun e => Return ("Failed to create plot: " +:+ exn_str e)).

Definition compare_stocks (ticker1 ticker2 start_date end_date : string)
  : outcome (gmap string value) :=
  try_except
    (stock1_data <- get_stock_data ticker1 ticker1 start_date end_date ;;
     stock2_data <- get_stock_data ticker2 ticker2 start_date end_date ;;
     if contains stock1_data "error" || contains stock2_data "error" then
       Return {[ "error" := VStr "Failed to get data for one or both stocks";
                 "stock1_error" := get stock1_data "error" (VStr "No error");
                 "stock2_error" := get stock2_data "error" (VStr "No error") ]}
     else
       start_formatted <- parse_date start_date ;;
       end_formatted <- parse_date end_date ;;
       pct1 <- getitem stock1_data "percentage_change" ;;
       chg1 <- getitem stock1_data "price_change" ;;
       fin1 <- getitem stock1_data "closing_price" ;;
       pct2 <- getitem stock2_data "percentage_change" ;;
       chg2 <- getitem stock2_data "price_change" ;;
       fin2 <- getitem stock2_data "closing_price" ;;
       let comparison : gmap string value :=
         {[ "comparison_period" :=
              VStr (start_formatted +:+ " to " +:+ end_formatted);
            "stock1" := VDict {[ "ticker" := VStr ticker1;
                                 "percentage_change" := pct1;
                                 "price_change" := chg1;
                                 "final_price" := fin1 ]};
            "stock2" := VDict {[ "ticker" := VStr ticker2;
                                 "percentage_change" := pct2;
                                 "price_change" := chg2;
                                 "final_price" := fin2 ]} ]} in
       first_wins <- value_gt pct1 pct2 ;;
       if (first_wins : bool) then
         diff <- value_sub pct1 pct2 ;;
         rounded <- value_round diff 2 ;;
         Return (<["performance_difference" := rounded]>
                   (<["better_performer" := VStr ticker1]> comparison))
       else
         diff <- value_sub pct2 pct1 ;;
         rounded <- value_round diff 2 ;;
         Return (<["performance_difference" := rounded]>
                   (<["better_performer" := VStr ticker2]> comparison)))
    (fun e => Return {[ "error" := VStr ("Comparison failed: " +:+ exn_str e) ]}).

Definition NA : value := VStr "N/A".

(** [str(v)], as an f-string field without a format gives it. *)
Definition value_str (v : value) : string :=
  match v with
  | VNone => "None"
  | VStr s => s
  | VInt z => pretty z
  | VFloat f => float_str f
  | VDict d => dict_str d
  end.

(** [format(v, ',')], the field [{v:,}] of an f-string: only numbers take
    the thousands separator. *)
Definition value_format_grouped (v : value) : outcome string :=
  match v with
  | VInt z => Return (group_thousands z)
  | VFloat f => Return (float_grouped f)
  | VStr _ => Raise (Exn ValueError "Cannot specify ',' with 's'.")
  | VNone | VDict _ =>
      Raise (Exn TypeError
        ("unsupported format string passed to " +:+ type_name v +:+ ".__format__"))
  end.

Definition read_stock_resource (ticker : string) : outcome string :=
  try_except
    (info <- ticker_info ticker ;;
     let long_name := value_str (get info "longName" NA) in
     let sector := value_str (get info "sector" NA) in
     let industry := value_str (get info "industry" NA) in
     let price := value_str (get info "currentPrice" NA) in
     market_cap <- value_format_grouped (get info "marketCap" NA) ;;
     let high := value_str (get info "fiftyTwoWeekHigh" NA) in
     let low := value_str (get info "fiftyTwoWeekLow" NA) in
     Return (resource_text ticker long_name sector industry price market_cap
               high low))
    (fun e => Return ("Error fetching stock resource: " +:+ exn_str e)).

End Server.

(** The two shapes of a [get_stock_data] result. *)
Definition error_result (msg ticker name : string) : gmap string value :=
  {[ "error" := VStr msg; "ticker" := VStr ticker; "name" := VStr name ]}.

Definition stats_result (ticker name start_formatted end_formatted : string)
    (data_points : Z)
    (opening closing highest lowest average change percentage : float)
    (average_volume : Z) : gmap string value :=
  {[ "ticker" := VStr ticker;
     "name" := VStr name;
     "start_date" := VStr start_formatted;
     "end_date" := VStr end_formatted;
     "data_points" := VInt data_points;
     "opening_price" := VFloat opening;
     "closing_price" := VFloat closing;
     "highest_price" := VFloat highest;
     "lowest_price" := VFloat lowest;
     "average_price" := VFloat average;
     "price_change" := VFloat change;
     "percentage_change" := VFloat percentage;
     "average_volume" := VInt average_volume ]}.

(** The statistics of a non-empty frame, field by field. *)
Definition stats_of (mean : list float -> float)
    (ticker name start_formatted end_formatted : string)
    (data : list Pd.Row) (first last_ : Pd.Row) (volume : Z)
  : gmap string value :=
  stats_result ticker name start_formatted end_formatted
    (Z.of_nat (length data))
    (Np.round (Pd.Open first) 2)
    (Np.round (Pd.Close last_) 2)
    (Np.round (Pd.max (map Pd.High data)) 2)
    (Np.round (Pd.min (map Pd.Low data)) 2)
    (Np.round (mean (map Pd.Close data)) 2)
    (Np.round (Pd.Close last_ - Pd.Open first) 2)
    (Np.round ((Pd.Close last_ / Pd.Open first - 1) * 100) 2)
    volume.

(** * Reading binary64 numbers

    The primitive operations are specified by the functions of [SpecFloat];
    these are the notions the facts about them are stated with. *)

Module SF.

(** Neither zero nor a finite number. *)
Definition nonfinite (x : spec_float) : bool :=
  match x with
  | S754_infinity _ | S754_nan => true
  | _ => false
  end.

(** The integer [n] with [x = n * 2 ^ e], for a finite [x] and [e] no
    larger than its exponent. *)
Definition aligned (s : bool) (m : positive) (ex e : Z) : Z :=
  cond_Zopp s (Zpos (fst (shl_align m ex e))).

(** The place of a number in the order of the floats: its class (negative
    infinity, negative, zero, positive, positive infinity), then exponent
    and mantissa, both negated for a negative number. *)
Definition key (x : spec_float) : Z * Z * Z :=
  match x with
  | S754_nan => (0, 0, 0)
  | S754_zero _ => (0, 0, 0)
  | S754_infinity s => (if s then -2 else 2, 0, 0)
  | S754_finite s m e => if s then (-1, - e, Zneg m) else (1, e, Zpos m)
  end.

Definition key_le (a b : Z * Z * Z) : Prop :=
  let '(a1, a2, a3) := a in
  let '(b1, b2, b3) := b in
  a1 < b1 \/ (a1 = b1 /\ (a2 < b2 \/ (a2 = b2 /\ a3 <= b3))).

Definition key_lt (a b : Z * Z * Z) : Prop :=
  let '(a1, a2, a3) := a in
  let '(b1, b2, b3) := b in
  a1 < b1 \/ (a1 = b1 /\ (a2 < b2 \/ (a2 = b2 /\ a3 < b3))).

End SF.

(** * Sample collaborators

    A small market, used to run the server on concrete requests. *)

Module Sample.

Definition acme : list Pd.Row :=
  [ Pd.mkRow "2024-01-02" 100 105 98 104 1000;
    Pd.mkRow "2024-01-03" 104 115 95 108 3000;
    Pd.mkRow "2024-01-04" 108 112 101 110 2000 ].

Definition aapl : list Pd.Row :=
  [ Pd.mkRow "2024-01-02" 250 262 249 260 52000000;
    Pd.mkRow "2024-01-03" 260 281 258 280 48000000 ].

Definition msft : list Pd.Row :=
  [ Pd.mkRow "2024-01-02" 400 420 399 415 21000000;
    Pd.mkRow "2024-01-03" 415 433 410 432 19000000 ].

(** A listing whose first open is zero. *)
Definition zero : list Pd.Row :=
  [ Pd.mkRow "2024-01-02" 0 2 0 1 500;
    Pd.mkRow "2024-01-03" 1 3 1 2 700 ].

Definition history (ticker start_ end_ : string) : outcome (list Pd.Row) :=
  if String.eqb ticker "ACME" then Return acme
  else if String.eqb ticker "AAPL" then Return aapl
  else if String.eqb ticker "MSFT" then Return msft
  else if String.eqb ticker "ZERO" then Return zero
  else if String.eqb ticker "EMPTY" then Return []
  else Raise (Exn OtherError "No timezone found, symbol may be delisted").

Definition mean (series : list float) : float :=
  (fold_left PrimFloat.add series 0 / Np.of_Z (Z.of_nat (length series)))%float.

Definition mean_int (series : list Z) : float := mean (map Np.of_Z series).

(** What [get_stock_data] answers for two of the listings in January 2024. *)
Definition aapl_stats : gmap string value :=
  stats_of mean "AAPL" "AAPL" "2024-01-01" "2024-01-31" aapl
    (Pd.mkRow "2024-01-02" 250 262 249 260 52000000)
    (Pd.mkRow "2024-01-03" 260 281 258 280 48000000)
    50000000.

Definition msft_stats : gmap string value :=
  stats_of mean "MSFT" "MSFT" "2024-01-01" "2024-01-31" msft
    (Pd.mkRow "2024-01-02" 400 420 399 415 21000000)
    (Pd.mkRow "2024-01-03" 415 433 410 432 19000000)
    20000000.

Definition empty_stats : gmap string value :=
  error_result (no_data_message "EMPTY") "EMPTY" "EMPTY".

(** The eight bytes every PNG file starts with. *)
Definition png_signature : list Byte.byte :=
  [Byte.x89; Byte.x50; Byte.x4e; Byte.x47; Byte.x0d; Byte.x0a; Byte.x1a; Byte.x0a].

Definition render_png (ticker name start_ end_ : string) (data : list Pd.Row)
  : outcome (list Byte.byte) :=
  if String.eqb ticker "MSFT" then Raise (Exn OtherError "main thread is not in main loop")
  else Return png_signature.

Definition apple_info : gmap string value :=
  {[ "longName" := VStr "Apple Inc.";
     "sector" := VStr "Technology";
     "industry" := VStr "Consumer Electronics";
     "currentPrice" := VFloat 189.5;
     "marketCap" := VInt 2890000000000;
     "fiftyTwoWeekHigh" := VFloat 199.5;
     "fiftyTwoWeekLow" := VFloat 164.25 ]}.

(** A fund: Yahoo reports no sector and no industry for it. *)
Definition fund_info : gmap string value :=
  {[ "longName" := VStr "SPDR S&P 500 ETF Trust";
     "currentPrice" := VFloat 470.5;
     "marketCap" := VInt 432000000000;
     "fiftyTwoWeekHigh" := VFloat 479.75;
     "fiftyTwoWeekLow" := VFloat 380.5 ]}.

(** An index: Yahoo reports no market capitalisation for it. *)
Definition index_info : gmap string value :=
  {[ "longName" := VStr "S&P 500";
     "fiftyTwoWeekHigh" := VFloat 4793.5;
     "fiftyTwoWeekLow" := VFloat 3808.75 ]}.

Definition ticker_info (ticker : string) : outcome (gmap string value) :=
  if String.eqb ticker "AAPL" then Return apple_info
  else if String.eqb ticker "SPY" then Return fund_info
  else if String.eqb ticker "^GSPC" then Return index_info
  else Raise (Exn OtherError "HTTP Error 404: Not Found").

(** A float printed with its hundredths, a last zero dropped: what [str]
    gives on the prices above. *)
Definition float_str (f : float) : string :=
  match Np.to_int (Np.rint (f * 100)) with
  | Return n =>
      let a := Z.abs n in
      (if n <? 0 then "-" else "") +:+ pretty (a / 100) +:+ "."
      +:+ Datetime.digit (a / 10)
      +:+ (if a mod 10 =? 0 then "" else Datetime.digit a)
  | Raise _ => "nan"
  end.

(** The same with the digits of the whole part grouped by three: what
    [format(f, ',')] gives on the prices above. *)
Definition float_grouped (f : float) : string :=
  match Np.to_int (Np.rint (f * 100)) with
  | Return n =>
      let a := Z.abs n in
      (if n <? 0 then "-" else "") +:+ group_thousands (a / 100) +:+ "."
      +:+ Datetime.digit (a / 10)
      +:+ (if a mod 10 =? 0 then "" else Datetime.digit a)
  | Raise _ => "nan"
  end.

Definition dict_str (d : gmap string value) : string := "{...}".

End Sample.

(** * Calendar dates, as the specification words them *)

(** The number a string of decimal digits denotes. *)
Fixpoint decimal_from (acc : Z) (s : string) : Z :=
  match s with
  | EmptyString => acc
  | String c s' => decimal_from (10 * acc + PyStr.digit_val c) s'
  end.

Definition decimal (s : string) : Z := decimal_from 0 s.

(** A day of the calendar: years run from 1 to 9999, there is no year 0. *)
Definition real_calendar_date (y m d : Z) : Prop :=
  1 <= y <= 9999 /\ 1 <= m <= 12 /\ 1 <= d <= Datetime.days_in_month y m.

Definition real_calendar_dateb (y m d : Z) : bool :=
  (1 <=? y) && (y <=? 9999) && (1 <=? m) && (m <=? 12)
  && (1 <=? d) && (d <=? Datetime.days_in_month y m).

(** The three fields of an [MMDDYYYY] token. *)
Definition token_month (token : string) : string := String.substring 0 2 token.
Definition token_day (token : string) : string := String.substring 2 2 token.
Definition token_year (token : string) : string := String.substring 4 4 token.

(** * What [compare_stocks] returns when both legs succeed *)

Definition comparison_result (ticker1 ticker2 start_formatted end_formatted : string)
    (pct1 chg1 fin1 pct2 chg2 fin2 : float) : gmap string value :=
  <["performance_difference" :=
      VFloat (Np.round (if (pct2 <? pct1)%float then pct1 - pct2
                        else pct2 - pct1)%float 2)]>
    (<["better_performer" :=
         VStr (if (pct2 <? pct1)%float then ticker1 else ticker2)]>
       {[ "comparison_period" :=
            VStr (start_formatted +:+ " to " +:+ end_formatted);
          "stock1" := VDict {[ "ticker" := VStr ticker1;
                               "percentage_change" := VFloat pct1;
                               "price_change" := VFloat chg1;
                               "final_price" := VFloat fin1 ]};
          "stock2" := VDict {[ "ticker" := VStr ticker2;
                               "percentage_change" := VFloat pct2;
                               "price_change" := VFloat chg2;
                               "final_price" := VFloat fin2 ]} ]}).

(** The keys of the three dictionaries the tools return. *)
Definition error_keys : gset string := {[ "error"; "ticker"; "name" ]}.

Definition stats_keys : gset string :=
  {[ "ticker"; "name"; "start_date"; "end_date"; "data_points";
     "opening_price"; "closing_price"; "highest_price"; "lowest_price";
     "average_price"; "price_change"; "percentage_change"; "average_volume" ]}.

Definition comparison_keys : gset string :=
  {[ "comparison_period"; "stock1"; "stock2"; "better_performer";
     "performance_difference" ]}.

Definition comparison_error_keys : gset string :=
  {[ "error"; "stock1_error"; "stock2_error" ]}.

(** * The callers: [example_client.py] *)

(** What a run of [print] statements leaves: the lines printed, and the
    exception that stopped the run, if one did. *)
Definition printed : Type := (list string * option exn)%type.

(** Each statement evaluates its text, which may raise, and prints it. *)
Fixpoint print_all (lines : list (outcome string)) : printed :=
  match lines with
  | [] => ([], None)
  | Return line :: rest =>
      let '(out, stopped) := print_all rest in (line :: out, stopped)
  | Raise e :: _ => ([], Some e)
  end.

(** [v[key]] on a value. *)
Definition subscript (v : value) (key : string) : outcome value :=
  match v with
  | VDict d => getitem d key
  | VStr _ => Raise (Exn TypeError "string indices must be integers")
  | _ => Raise (Exn TypeError
           ("'" +:+ type_name v +:+ "' object is not subscriptable"))
  end.

Section Client.

Variable float_str : float -> string.
Variable dict_str : gmap string value -> string.

(** The f-string field [{data['key']}]. *)
Definition field (data : gmap string value) (key : string) : outcome string :=
  v <- getitem data key ;; Return (value_str float_str dict_str v).

(** The f-string field [{comp['outer']['key']}]. *)
Definition field2 (comp : gmap string value) (outer key : string)
  : outcome string :=
  o <- getitem comp outer ;;
  v <- subscript o key ;;
  Return (value_str float_str dict_str v).

(** [demo_stock_analysis], step 2: what it prints of a [get_stock_data]
    result, read without looking for an error first. *)
Definition demo_show_stock_data (data : gmap string value) : printed :=
  print_all
    [ (name <- field data "name" ;;
       ticker <- field data "ticker" ;;
       Return ("   📈 " +:+ name +:+ " (" +:+ ticker +:+ ")"));
      (x <- field data "opening_price" ;;
       Return ("   💰 Opening Price: $" +:+ x));
      (x <- field data "closing_price" ;;
       Return ("   💰 Closing Price: $" +:+ x));
      (x <- field data "price_change" ;;
       Return ("   📊 Price Change: $" +:+ x));
      (x <- field data "percentage_change" ;;
       Return ("   📈 Percentage Change: " +:+ x +:+ "%"));
      (x <- field data "data_points" ;;
       Return ("   📊 Data Points: " +:+ x)) ].

(** [demo_stock_analysis], step 3: what it prints of a [compare_stocks]
    result. *)
Definition demo_show_comparison (comp : gmap string value) : printed :=
  if negb (contains comp "error") then
    print_all
      [ (x <- field comp "better_performer" ;;
         Return ("   🏆 Better Performer: " +:+ x));
        (x <- field comp "performance_difference" ;;
         Return ("   📊 Performance Difference: " +:+ x +:+ "%"));
        (t <- field2 comp "stock1" "ticker" ;;
         x <- field2 comp "stock1" "percentage_change" ;;
         Return ("   📈 " +:+ t +:+ ": " +:+ x +:+ "%"));
        (t <- field2 comp "stock2" "ticker" ;;
         x <- field2 comp "stock2" "percentage_change" ;;
         Return ("   📈 " +:+ t +:+ ": " +:+ x +:+ "%")) ]
  else
    print_all
      [ (x <- field comp "error" ;;
         Return ("   ❌ Comparison Error: " +:+ x)) ].

(** [interactive_mode]: what it prints of a [get_stock_data] result. *)
Definition interactive_show (ticker : string) (data : gmap string value)
  : printed :=
  if contains data "error" then
    print_all [ (x <- field data "error" ;; Return ("❌ Error: " +:+ x)) ]
  else
    print_all
      [ Return (NL +:+ "📊 Results for " +:+ ticker +:+ ":");
        (x <- field data "opening_price" ;; Return ("Opening: $" +:+ x));
        (x <- field data "closing_price" ;; Return ("Closing: $" +:+ x));
        (x <- field data "percentage_change" ;;
         Return ("Change: " +:+ x +:+ "%"));
        (x <- field data "highest_price" ;; Return ("High: $" +:+ x));
        (x <- field data "lowest_price" ;; Return ("Low: $" +:+ x)) ].

End Client.

(** [demo_stock_analysis], step 5: the test it makes of a
    [plot_stock_price] result before announcing a plot. *)
Definition demo_plot_accepted (result : string) : bool :=
  PyStr.startswith result "data:image".

(** * The callers: [debug_guide.py] *)

(** The copy of [parse_date] inside [test_date_parsing]: every exception
    is caught, and its text is put in the message. *)
Definition debug_parse_date (date_str : string) : outcome string :=
  try_except
    (let month := PyStr.slice 0 2 date_str in
     let day := PyStr.slice 2 4 date_str in
     let year := PyStr.drop 4 date_str in
     y <- PyStr.int year ;;
     m <- PyStr.int month ;;
     d <- PyStr.int day ;;
     dt <- Datetime.make y m d ;;
     Return (Datetime.strftime_Ymd dt))
    (fun e =>
       Raise (Exn ValueError
         ("Invalid date format: " +:+ date_str +:+ ". Error: " +:+ exn_str e))).

Record test_case : Type := mkCase {
  case_input : string;
  case_expected : option string;
  case_description : string
}.

Definition date_test_cases : list test_case :=
  [ mkCase "01012024" (Some "2024-01-01") "Valid date - Jan 1, 2024";
    mkCase "12312023" (Some "2023-12-31") "Valid date - Dec 31, 2023";
    mkCase "02292024" (Some "2024-02-29") "Leap year date";
    mkCase "13012024" None "Invalid month";
    mkCase "01322024" None "Invalid day";
    mkCase "010124" None "Wrong format - too short";
    mkCase "0101202" None "Wrong format - too short";
    mkCase "abc12024" None "Non-numeric input" ].

(** An entry of [self.test_results]. *)
Record log_entry : Type := mkEntry {
  entry_test : string;
  entry_status : string;
  entry_success : bool;
  entry_details : string;
  entry_timestamp : string
}.

Section Debugger.

(** [datetime.now().isoformat()] when the n-th entry is logged. *)
Variable clock : nat -> string.

(** [log_test]: the entry is appended (and printed). *)
Definition log_test (results : list log_entry) (test_name : string)
    (success : bool) (details : string) : list log_entry :=
  results ++
  [ mkEntry test_name (if success then "✅ PASS" else "❌ FAIL") success
      details (clock (length results)) ].

(** One turn of the loop of [test_date_parsing]. *)
Definition run_date_case (results : list log_entry) (c : test_case)
  : list log_entry :=
  let name := "Date Parse: " +:+ case_description c in
  match debug_parse_date (case_input c) with
  | Return result =>
      match case_expected c with
      | None =>
          log_test results name false ("Should have failed but got: " +:+ result)
      | Some expected =>
          if String.eqb result expected then log_test results name true ""
          else log_test results name false
                 ("Expected " +:+ expected +:+ ", got " +:+ result)
      end
  | Raise e =>
      match case_expected c with
      | None => log_test results name true "Correctly failed"
      | Some _ => log_test results name false (exn_str e)
      end
  end.

Definition test_date_parsing (results : list log_entry) : list log_entry :=
  fold_left run_date_case date_test_cases results.

End Debugger.

(** * More sample data *)

Module Cases.

(** A snapshot with nothing but the market capitalisation. *)
Definition bare_info : gmap string value :=
  {[ "marketCap" := VInt 1234567 ]}.

(** A snapshot whose market capitalisation is [None]. *)
Definition none_cap_info : gmap string value :=
  {[ "longName" := VStr "Acme Corp"; "marketCap" := VNone ]}.

Definition ticker_info (ticker : string) : outcome (gmap string value) :=
  if String.eqb ticker "BARE" then Return bare_info
  else if String.eqb ticker "NONE" then Return none_cap_info
  else Raise (Exn OtherError "HTTP Error 404: Not Found").

(** A clock that always shows the same instant. *)
Definition clock (n : nat) : string := "2024-01-01T00:00:00".

End Cases.

(** * Facts about [parse_date] *)

Lemma real_calendar_dateb_spec (y m d : Z) :
  real_calendar_dateb y m d = true <-> real_calendar_date y m d.
Proof.
  unfold real_calendar_dateb, real_calendar_date.
  rewrite !andb_true_iff, !Z.leb_le. tauto.
Qed.

Lemma digit_val_range (c : ascii) :
  PyStr.is_digit c = true -> 0 <= PyStr.digit_val c <= 9.
Proof.
  unfold PyStr.is_digit, PyStr.digit_val.
  rewrite andb_true_iff, !Z.leb_le. lia.
Qed.

Lemma digit_not_space (c : ascii) :
  PyStr.is_digit c = true -> PyStr.is_space c = false.
Proof.
  unfold PyStr.is_digit, PyStr.is_space.
  rewrite andb_true_iff, !Z.leb_le. intros [H1 H2].
  repeat (apply orb_false_iff; split);
    try (apply andb_false_iff);
    rewrite ?Z.leb_gt, ?Z.eqb_neq; lia.
Qed.

Lemma digit_char_val (c : ascii) :
  PyStr.is_digit c = true -> PyStr.digit_char (PyStr.digit_val c) = c.
Proof.
  unfold PyStr.digit_char, PyStr.digit_val, PyStr.code. intros _.
  replace (Z.to_nat (48 + (Z.of_nat (nat_of_ascii c) - 48))) with (nat_of_ascii c) by lia.
  apply ascii_nat_embedding.
Qed.

Lemma digit_not_sign (c : ascii) (r : string) :
  PyStr.is_digit c = true ->
  match String c r with
  | String "-"%char r' => (true, r')
  | String "+"%char r' => (false, r')
  | _ => (false, String c r)
  end = (false, String c r).
Proof.
  intros H.
  destruct c as [[] [] [] [] [] [] [] []]; try reflexivity; discriminate H.
Qed.

(** [int] on two and on four decimal digits. *)
Lemma int_two_digits (a b : ascii) :
  PyStr.is_digit a = true -> PyStr.is_digit b = true ->
  PyStr.int (String a (String b EmptyString))
  = Return (10 * PyStr.digit_val a + PyStr.digit_val b).
Proof.
  intros Ha Hb. unfold PyStr.int, PyStr.strip, PyStr.rstrip.
  cbn [PyStr.lstrip PyStr.rev PyStr.rev_app].
  rewrite ?(digit_not_space _ Ha), ?(digit_not_space _ Hb).
  cbn [PyStr.lstrip PyStr.rev PyStr.rev_app].
  rewrite ?(digit_not_space _ Ha), ?(digit_not_space _ Hb).
  cbn [PyStr.rev PyStr.rev_app].
  rewrite (digit_not_sign a _ Ha).
  cbn [PyStr.count_digits PyStr.parse_digits]. rewrite Ha, Hb.
  cbn [PyStr.parse_digits]. rewrite ?Ha, ?Hb. reflexivity.
Qed.

Lemma int_four_digits (a b c d : ascii) :
  PyStr.is_digit a = true -> PyStr.is_digit b = true ->
  PyStr.is_digit c = true -> PyStr.is_digit d = true ->
  PyStr.int (String a (String b (String c (String d EmptyString))))
  = Return (10 * (10 * (10 * PyStr.digit_val a + PyStr.digit_val b)
                  + PyStr.digit_val c) + PyStr.digit_val d).
Proof.
  intros Ha Hb Hc Hd. unfold PyStr.int, PyStr.strip, PyStr.rstrip.
  cbn [PyStr.lstrip PyStr.rev PyStr.rev_app].
  rewrite ?(digit_not_space _ Ha), ?(digit_not_space _ Hd).
  cbn [PyStr.lstrip PyStr.rev PyStr.rev_app].
  rewrite ?(digit_not_space _ Ha), ?(digit_not_space _ Hd).
  cbn [PyStr.rev PyStr.rev_app].
  rewrite (digit_not_sign a _ Ha).
  cbn [PyStr.count_digits PyStr.parse_digits]. rewrite Ha, Hb, Hc, Hd.
  cbn [PyStr.parse_digits]. rewrite ?Ha, ?Hb, ?Hc, ?Hd. reflexivity.
Qed.

Lemma make_real_date (y m d : Z) :
  real_calendar_date y m d ->
  Datetime.make y m d = Return (Datetime.Build y m d).
Proof.
  intros (Hy & Hm & Hd). unfold Datetime.make.
  assert (Hdim : Datetime.days_in_month y m <= 31).
  { unfold Datetime.days_in_month.
    repeat match goal with |- context [if ?b then _ else _] => destruct b end; lia. }
  replace (Datetime.fits_c_int y) with true
    by (symmetry; unfold Datetime.fits_c_int; apply andb_true_iff; split; [apply Z.leb_le | apply Z.ltb_lt]; lia).
  replace (Datetime.fits_c_int m) with true
    by (symmetry; unfold Datetime.fits_c_int; apply andb_true_iff; split; [apply Z.leb_le | apply Z.ltb_lt]; lia).
  replace (Datetime.fits_c_int d) with true
    by (symmetry; unfold Datetime.fits_c_int; apply andb_true_iff; split; [apply Z.leb_le | apply Z.ltb_lt]; lia).
  unfold Datetime.MINYEAR, Datetime.MAXYEAR.
  replace ((1 <=? y) && (y <=? 9999)) with true
    by (symmetry; apply andb_true_iff; split; apply Z.leb_le; lia).
  replace ((1 <=? m) && (m <=? 12)) with true
    by (symmetry; apply andb_true_iff; split; apply Z.leb_le; lia).
  replace ((1 <=? d) && (d <=? Datetime.days_in_month y m)) with true
    by (symmetry; apply andb_true_iff; split; apply Z.leb_le; lia).
  reflexivity.
Qed.

Lemma make_unreal_date (y m d : Z) :
  0 <= y < 10000 -> 0 <= m < 100 -> 0 <= d < 100 ->
  real_calendar_dateb y m d = false ->
  exists msg, Datetime.make y m d = Raise (Exn ValueError msg).
Proof.
  intros Hy Hm Hd Hreal. unfold Datetime.make.
  replace (Datetime.fits_c_int y) with true
    by (symmetry; unfold Datetime.fits_c_int; apply andb_true_iff; split; [apply Z.leb_le | apply Z.ltb_lt]; lia).
  replace (Datetime.fits_c_int m) with true
    by (symmetry; unfold Datetime.fits_c_int; apply andb_true_iff; split; [apply Z.leb_le | apply Z.ltb_lt]; lia).
  replace (Datetime.fits_c_int d) with true
    by (symmetry; unfold Datetime.fits_c_int; apply andb_true_iff; split; [apply Z.leb_le | apply Z.ltb_lt]; lia).
  unfold Datetime.MINYEAR, Datetime.MAXYEAR. cbn [andb negb].
  destruct ((1 <=? y) && (y <=? 9999)) eqn:Ey; cbn [negb]; [|eauto].
  destruct ((1 <=? m) && (m <=? 12)) eqn:Em; cbn [negb]; [|eauto].
  destruct ((1 <=? d) && (d <=? Datetime.days_in_month y m)) eqn:Ed; cbn [negb]; [|eauto].
  apply andb_true_iff in Ey as [Ey1 Ey2]. apply andb_true_iff in Em as [Em1 Em2].
  apply andb_true_iff in Ed as [Ed1 Ed2].
  unfold real_calendar_dateb in Hreal.
  rewrite Ey1, Ey2, Em1, Em2, Ed1, Ed2 in Hreal. discriminate Hreal.
Qed.

Lemma fmt_2_digits (a b : ascii) :
  PyStr.is_digit a = true -> PyStr.is_digit b = true ->
  Datetime.fmt_2 (10 * PyStr.digit_val a + PyStr.digit_val b)
  = String a (String b EmptyString).
Proof.
  intros Ha Hb.
  pose proof (digit_val_range a Ha). pose proof (digit_val_range b Hb).
  unfold Datetime.fmt_2, Datetime.digit.
  replace ((10 * PyStr.digit_val a + PyStr.digit_val b) / 10 mod 10)
    with (PyStr.digit_val a) by (Z.div_mod_to_equations; lia).
  replace ((10 * PyStr.digit_val a + PyStr.digit_val b) mod 10)
    with (PyStr.digit_val b) by (Z.div_mod_to_equations; lia).
  rewrite !digit_char_val by assumption. reflexivity.
Qed.


(** Every string of eight decimal digits is made of eight digit characters. *)
Lemma eight_digits (token : string) :
  String.length token = 8%nat -> PyStr.all_digits token = true ->
  exists a b c d e f g h,
    token = String a (String b (String c (String d
              (String e (String f (String g (String h EmptyString)))))))
    /\ PyStr.is_digit a = true /\ PyStr.is_digit b = true
    /\ PyStr.is_digit c = true /\ PyStr.is_digit d = true
    /\ PyStr.is_digit e = true /\ PyStr.is_digit f = true
    /\ PyStr.is_digit g = true /\ PyStr.is_digit h = true.
Proof.
  intros Hlen Hdig.
  do 8 (destruct token as [|? token]; [discriminate Hlen|]).
  destruct token; [|discriminate Hlen].
  cbn [PyStr.all_digits] in Hdig.
  repeat (apply andb_true_iff in Hdig as [? Hdig]).
  repeat eexists; eauto.
Qed.

(** The outcome of [parse_date] on eight decimal digits, by the date they
    spell. *)
Lemma parse_date_eight_digits (token : string) :
  String.length token = 8%nat -> PyStr.all_digits token = true ->
  parse_date token =
    if real_calendar_dateb (decimal (token_year token))
         (decimal (token_month token)) (decimal (token_day token))
    then Return (Datetime.fmt_Y (decimal (token_year token)) +:+ "-"
                 +:+ token_month token +:+ "-" +:+ token_day token)
    else Raise (invalid_date_format token).
Proof.
  intros Hlen Hdig.
  destruct (eight_digits token Hlen Hdig)
    as (a & b & c & d & e & f & g & h & -> & Ha & Hb & Hc & Hd & He & Hf & Hg & Hh).
  unfold token_year, token_month, token_day, decimal.
  cbn [String.substring decimal_from].
  unfold parse_date, PyStr.slice.
  cbn [Nat.sub PyStr.take PyStr.drop].
  rewrite int_four_digits, !int_two_digits by assumption.
  cbn [bind]. rewrite !Z.mul_0_r, !Z.add_0_l.
  pose proof (digit_val_range a Ha). pose proof (digit_val_range b Hb).
  pose proof (digit_val_range c Hc). pose proof (digit_val_range d Hd).
  pose proof (digit_val_range e He). pose proof (digit_val_range f Hf).
  pose proof (digit_val_range g Hg). pose proof (digit_val_range h Hh).
  destruct (real_calendar_dateb _ _ _) eqn:Hreal.
  - apply real_calendar_dateb_spec in Hreal.
    rewrite (make_real_date _ _ _ Hreal). cbn [bind try_except_in].
    unfold Datetime.strftime_Ymd. cbn [Datetime.year Datetime.month Datetime.day].
    rewrite !fmt_2_digits by assumption. reflexivity.
  - match goal with
    | |- context [Datetime.make ?y ?m ?d] =>
        destruct (make_unreal_date y m d) as [msg ->];
        [lia | lia | lia | exact Hreal |]
    end.
    reflexivity.
Qed.

(** * Facts about binary64 arithmetic

    The primitive operations are specified by the functions of [SpecFloat];
    the facts below are proved there and carried back to [float]. *)


Lemma SF_div_zero_nonfinite (x : spec_float) (s : bool) :
  SF.nonfinite (SF64div x (S754_zero s)) = true.
Proof. destruct x; reflexivity. Qed.

Lemma SF_sub_nonfinite (x y : spec_float) :
  SF.nonfinite x = true -> SF.nonfinite (SF64sub x y) = true.
Proof. destruct x as [| [] | |], y as [| [] | |]; try discriminate; reflexivity. Qed.

Lemma SF_mul_nonfinite (x y : spec_float) :
  SF.nonfinite x = true -> SF.nonfinite (SF64mul x y) = true.
Proof. destruct x, y; try discriminate; reflexivity. Qed.

Lemma SF_div_nonfinite (x y : spec_float) :
  SF.nonfinite x = true -> SF.nonfinite (SF64div x y) = true.
Proof. destruct x, y; try discriminate; reflexivity. Qed.




Lemma digits2_pos_bounds (m : positive) :
  2 ^ (Zpos (digits2_pos m) - 1) <= Zpos m < 2 ^ Zpos (digits2_pos m).
Proof.
  induction m as [m IH | m IH |]; cbn [digits2_pos].
  - rewrite Pos2Z.inj_succ.
    replace (Z.succ (Zpos (digits2_pos m)) - 1) with (Z.succ (Zpos (digits2_pos m) - 1)) by lia.
    rewrite !Z.pow_succ_r by lia. lia.
  - rewrite Pos2Z.inj_succ.
    replace (Z.succ (Zpos (digits2_pos m)) - 1) with (Z.succ (Zpos (digits2_pos m) - 1)) by lia.
    rewrite !Z.pow_succ_r by lia. lia.
  - cbn. lia.
Qed.

Lemma shl_align_value (m : positive) (ex e : Z) :
  e <= ex -> Zpos (fst (shl_align m ex e)) = Zpos m * 2 ^ (ex - e).
Proof.
  intros Hle. unfold shl_align.
  destruct (e - ex) as [| d | d] eqn:Hd.
  - replace (ex - e) with 0 by lia. cbn [fst]. lia.
  - lia.
  - cbn [fst]. replace (ex - e) with (Zpos d) by lia.
    rewrite <- Z.shiftl_mul_pow2 by lia. cbn [Z.shiftl].
    apply Pos.iter_swap_gen. reflexivity.
Qed.

(** On canonical mantissas, comparing exponents first and mantissas next
    compares the numbers. *)
Lemma canonical_compare (m1 : positive) (e1 : Z) (m2 : positive) (e2 : Z) :
  canonical_mantissa prec emax m1 e1 = true ->
  canonical_mantissa prec emax m2 e2 = true ->
  match e1 ?= e2 with
  | Lt => Lt
  | Gt => Gt
  | Eq => Pos.compare_cont Eq m1 m2
  end
  = (Zpos (fst (shl_align m1 e1 (Z.min e1 e2)))
     ?= Zpos (fst (shl_align m2 e2 (Z.min e1 e2)))).
Proof.
  unfold canonical_mantissa, fexp, SpecFloat.emin. intros H1 H2.
  apply Z.eqb_eq in H1, H2.
  pose proof (digits2_pos_bounds m1) as B1.
  pose proof (digits2_pos_bounds m2) as B2.
  rewrite !shl_align_value by lia.
  change prec with 53 in *. change emax with 1024 in *.
  destruct (e1 ?= e2) eqn:Hc.
  - apply Z.compare_eq in Hc. subst e2.
    rewrite Z.min_id, Z.sub_diag, Z.pow_0_r, !Z.mul_1_r. reflexivity.
  - assert (Hlt : e1 < e2) by (apply Z.compare_lt_iff; exact Hc).
    symmetry. apply Z.compare_lt_iff.
    rewrite Z.min_l by lia. rewrite Z.sub_diag, Z.pow_0_r, Z.mul_1_r.
    assert (Hd2 : Zpos (digits2_pos m2) = 53) by lia.
    assert (Hd1 : Zpos (digits2_pos m1) <= 53) by lia.
    rewrite Hd2 in B2. change (53 - 1) with 52 in B2.
    assert (Zpos m1 < 2 ^ 53).
    { eapply Z.lt_le_trans; [apply B1|]. apply Z.pow_le_mono_r; lia. }
    assert (2 ^ 1 <= 2 ^ (e2 - e1)) by (apply Z.pow_le_mono_r; lia).
    change (2 ^ 1) with 2 in *. change (2 ^ 53) with (2 ^ 52 * 2) in *. nia.
  - assert (Hgt : e2 < e1) by (apply Z.compare_gt_iff; exact Hc).
    symmetry. apply Z.compare_gt_iff.
    rewrite Z.min_r by lia. rewrite Z.sub_diag, Z.pow_0_r, Z.mul_1_r.
    assert (Hd1 : Zpos (digits2_pos m1) = 53) by lia.
    assert (Hd2 : Zpos (digits2_pos m2) <= 53) by lia.
    rewrite Hd1 in B1. change (53 - 1) with 52 in B1.
    assert (Zpos m2 < 2 ^ 53).
    { eapply Z.lt_le_trans; [apply B2|]. apply Z.pow_le_mono_r; lia. }
    assert (2 ^ 1 <= 2 ^ (e1 - e2)) by (apply Z.pow_le_mono_r; lia).
    change (2 ^ 1) with 2 in *. change (2 ^ 53) with (2 ^ 52 * 2) in *. nia.
Qed.

Lemma SF_compare_aligned (s1 : bool) (m1 : positive) (e1 : Z)
    (s2 : bool) (m2 : positive) (e2 : Z) :
  valid_binary (S754_finite s1 m1 e1) = true ->
  valid_binary (S754_finite s2 m2 e2) = true ->
  SFcompare (S754_finite s1 m1 e1) (S754_finite s2 m2 e2)
  = Some (SF.aligned s1 m1 e1 (Z.min e1 e2) ?= SF.aligned s2 m2 e2 (Z.min e1 e2)).
Proof.
  cbn [SpecFloat.valid_binary]. unfold bounded.
  intros [C1 _]%andb_true_iff [C2 _]%andb_true_iff.
  pose proof (canonical_compare m1 e1 m2 e2 C1 C2) as Hcmp.
  unfold SF.aligned, SFcompare. f_equal.
  destruct s1, s2; cbn [cond_Zopp].
  - rewrite Z.compare_opp, (Z.compare_antisym (Zpos _) (Zpos _)), <- Hcmp.
    destruct (e1 ?= e2); reflexivity.
  - reflexivity.
  - reflexivity.
  - exact Hcmp.
Qed.


Lemma SF_compare_antisym (x y : spec_float) :
  valid_binary x = true -> valid_binary y = true ->
  SFcompare y x = option_map CompOpp (SFcompare x y).
Proof.
  intros Vx Vy.
  destruct x as [sx | sx | | sx mx ex], y as [sy | sy | | sy my ey];
    try reflexivity;
    try (destruct sx; reflexivity);
    try (destruct sy; reflexivity);
    try (destruct sx, sy; reflexivity).
  rewrite (SF_compare_aligned _ _ _ _ _ _ Vy Vx), (SF_compare_aligned _ _ _ _ _ _ Vx Vy).
  rewrite (Z.min_comm ey ex). cbn [option_map]. f_equal. apply Z.compare_antisym.
Qed.

(** The same facts on [float]. *)

Lemma float_of_SF (x : float) (sf : spec_float) :
  Prim2SF x = sf -> x = SF2Prim sf.
Proof. intros <-. symmetry. apply SF2Prim_Prim2SF. Qed.


Lemma float_ltb_asym (p q : float) :
  (p <? q)%float = true -> (q <? p)%float = false.
Proof.
  rewrite !ltb_spec. unfold SFltb.
  rewrite (SF_compare_antisym (Prim2SF p) (Prim2SF q)) by apply Prim2SF_valid.
  destruct (SFcompare (Prim2SF p) (Prim2SF q)) as [[]|]; cbn; congruence.
Qed.

Lemma float_eqb_not_ltb (p q : float) :
  (p =? q)%float = true -> (q <? p)%float = false.
Proof.
  rewrite FloatAxioms.eqb_spec, ltb_spec. unfold SFeqb, SFltb.
  rewrite (SF_compare_antisym (Prim2SF p) (Prim2SF q)) by apply Prim2SF_valid.
  destruct (SFcompare (Prim2SF p) (Prim2SF q)) as [[]|]; cbn; congruence.
Qed.

(** [Np.is_finite] tells the zeros and the finite numbers from the rest. *)
Lemma is_finite_nonfinite (x : float) :
  SF.nonfinite (Prim2SF x) = true -> Np.is_finite x = false.
Proof.
  unfold Np.is_finite, is_nan, is_infinity.
  rewrite !FloatAxioms.eqb_spec, abs_spec.
  destruct (Prim2SF x) as [s | s | | s m e]; try discriminate; intros _.
  - change (Prim2SF infinity) with (S754_infinity false). destruct s; reflexivity.
  - reflexivity.
Qed.

Lemma is_zero_spec (x : float) :
  (x =? 0)%float = true -> exists s, Prim2SF x = S754_zero s.
Proof.
  rewrite FloatAxioms.eqb_spec. change (Prim2SF 0) with (S754_zero false).
  destruct (Prim2SF x) as [s | [] | | [] m e]; try discriminate; eauto.
Qed.

Lemma rint_nonfinite (x : float) :
  SF.nonfinite (Prim2SF x) = true -> Np.rint x = x.
Proof.
  unfold Np.rint. rewrite ltb_spec, abs_spec.
  destruct (Prim2SF x) as [s | s | | s m e]; try discriminate; reflexivity.
Qed.

(** Rounding keeps an infinity or a NaN what it is. *)
Lemma round_nonfinite (x : float) (ndigits : Z) :
  SF.nonfinite (Prim2SF x) = true ->
  SF.nonfinite (Prim2SF (Np.round x ndigits)) = true.
Proof.
  intros Hx. unfold Np.round. rewrite div_spec.
  apply SF_div_nonfinite.
  assert (Hm : SF.nonfinite (Prim2SF (x * Np.of_Z (10 ^ ndigits))) = true)
    by (rewrite mul_spec; apply SF_mul_nonfinite, Hx).
  rewrite rint_nonfinite; assumption.
Qed.

(** Dividing by zero, then [- 1], [* 100] and rounding: never a number. *)
Lemma percentage_of_zero_open (close1 open0 : float) :
  (open0 =? 0)%float = true ->
  Np.is_finite (Np.round ((close1 / open0 - 1) * 100) 2) = false.
Proof.
  intros [s Hs]%is_zero_spec.
  apply is_finite_nonfinite, round_nonfinite.
  rewrite mul_spec. apply SF_mul_nonfinite.
  rewrite sub_spec. apply SF_sub_nonfinite.
  rewrite div_spec, Hs. apply SF_div_zero_nonfinite.
Qed.

(** ** The order of the floats *)

Lemma SF_compare_key (x y : spec_float) :
  x <> S754_nan -> y <> S754_nan ->
  match SFcompare x y with
  | Some Lt => SF.key_lt (SF.key x) (SF.key y)
  | Some Eq => SF.key x = SF.key y
  | Some Gt => SF.key_lt (SF.key y) (SF.key x)
  | None => False
  end.
Proof.
  intros Hx Hy.
  destruct x as [sx | sx | | sx mx ex], y as [sy | sy | | sy my ey];
    try congruence;
    try (destruct sx; cbn; lia);
    try (destruct sy; cbn; lia);
    try (destruct sx, sy; cbn; try reflexivity; lia).
  unfold SFcompare. change (Pos.compare_cont Eq mx my) with (mx ?= my)%positive.
  destruct sx, sy; cbn [SF.key];
    destruct (Z.compare_spec ex ey) as [He | He | He];
    destruct (Pos.compare_spec mx my) as [Hm | Hm | Hm];
    cbn [CompOpp SF.key_lt]; subst; try reflexivity; lia.
Qed.

Lemma float_not_nan (p : float) : is_nan p = false -> Prim2SF p <> S754_nan.
Proof.
  unfold is_nan. rewrite FloatAxioms.eqb_spec. intros H Hnan.
  rewrite Hnan in H. discriminate H.
Qed.

Lemma float_leb_key (p q : float) :
  is_nan p = false -> is_nan q = false ->
  (p <=? q)%float = true <-> SF.key_le (SF.key (Prim2SF p)) (SF.key (Prim2SF q)).
Proof.
  intros Hp%float_not_nan Hq%float_not_nan. rewrite leb_spec. unfold SFleb.
  pose proof (SF_compare_key _ _ Hp Hq) as H.
  destruct (SFcompare (Prim2SF p) (Prim2SF q)) as [[]|]; [| | |contradiction].
  - rewrite H. destruct (SF.key (Prim2SF q)) as [[a b] c]. cbn. split; [lia | reflexivity].
  - destruct (SF.key (Prim2SF p)) as [[a b] c], (SF.key (Prim2SF q)) as [[a' b'] c'].
    cbn in *. split; [lia | reflexivity].
  - destruct (SF.key (Prim2SF p)) as [[a b] c], (SF.key (Prim2SF q)) as [[a' b'] c'].
    cbn in *. split; [discriminate | lia].
Qed.

Lemma float_ltb_key (p q : float) :
  is_nan p = false -> is_nan q = false ->
  (p <? q)%float = true <-> SF.key_lt (SF.key (Prim2SF p)) (SF.key (Prim2SF q)).
Proof.
  intros Hp%float_not_nan Hq%float_not_nan. rewrite ltb_spec. unfold SFltb.
  pose proof (SF_compare_key _ _ Hp Hq) as H.
  destruct (SFcompare (Prim2SF p) (Prim2SF q)) as [[]|]; [| | |contradiction].
  - rewrite H. destruct (SF.key (Prim2SF q)) as [[a b] c]. cbn. split; [discriminate | lia].
  - tauto.
  - destruct (SF.key (Prim2SF p)) as [[a b] c], (SF.key (Prim2SF q)) as [[a' b'] c'].
    cbn in *. split; [discriminate | lia].
Qed.

Lemma float_leb_refl (p : float) : is_nan p = false -> (p <=? p)%float = true.
Proof.
  intros Hp. apply float_leb_key; [assumption..|].
  destruct (SF.key (Prim2SF p)) as [[a b] c]. cbn. lia.
Qed.

Lemma float_leb_trans (p q r : float) :
  is_nan p = false -> is_nan q = false -> is_nan r = false ->
  (p <=? q)%float = true -> (q <=? r)%float = true -> (p <=? r)%float = true.
Proof.
  intros Hp Hq Hr H1%float_leb_key H2%float_leb_key; [|assumption..].
  apply float_leb_key; [assumption..|].
  destruct (SF.key (Prim2SF p)) as [[a b] c], (SF.key (Prim2SF q)) as [[a' b'] c'],
    (SF.key (Prim2SF r)) as [[a'' b''] c''].
  cbn in *. lia.
Qed.

Lemma float_ltb_leb (p q : float) :
  is_nan p = false -> is_nan q = false ->
  (p <? q)%float = true -> (p <=? q)%float = true.
Proof.
  intros Hp Hq H%float_ltb_key; [|assumption..].
  apply float_leb_key; [assumption..|].
  destruct (SF.key (Prim2SF p)) as [[a b] c], (SF.key (Prim2SF q)) as [[a' b'] c'].
  cbn in *. lia.
Qed.

Lemma float_not_ltb_leb (p q : float) :
  is_nan p = false -> is_nan q = false ->
  (p <? q)%float = false -> (q <=? p)%float = true.
Proof.
  intros Hp Hq H. apply float_leb_key; [assumption..|].
  assert (Hn : ~ SF.key_lt (SF.key (Prim2SF p)) (SF.key (Prim2SF q))).
  { intros Hlt%float_ltb_key; [|assumption..]. congruence. }
  destruct (SF.key (Prim2SF p)) as [[a b] c], (SF.key (Prim2SF q)) as [[a' b'] c'].
  cbn in *. lia.
Qed.

(** ** [series.max()] and [series.min()] *)

Lemma fold_max2_spec (series : list float) (acc : float) :
  is_nan acc = false ->
  Forall (fun x => is_nan x = false) series ->
  let r := fold_left Pd.max2 series acc in
  is_nan r = false
  /\ (r = acc \/ In r series)
  /\ (acc <=? r)%float = true
  /\ Forall (fun x => (x <=? r)%float = true) series.
Proof.
  revert acc. induction series as [|x series IH]; intros acc Hacc Hall; cbn zeta.
  - cbn. auto using float_leb_refl.
  - inversion Hall as [|? ? Hx Hrest]; subst. cbn [fold_left].
    assert (Hstep : Pd.max2 acc x = if (x <? acc)%float then acc else x)
      by (unfold Pd.max2; rewrite Hx, Hacc; reflexivity).
    rewrite Hstep. destruct (x <? acc)%float eqn:Hlt.
    + destruct (IH acc Hacc Hrest) as (Hr & Hin & Hle & Hfor). cbn zeta in *.
      split; [exact Hr|]. split; [destruct Hin as [-> | Hin]; [left; reflexivity | right; right; exact Hin]|].
      split; [exact Hle|].
      constructor; [|assumption].
      eapply float_leb_trans; [| | | apply float_ltb_leb, Hlt | exact Hle]; assumption.
    + destruct (IH x Hx Hrest) as (Hr & Hin & Hle & Hfor). cbn zeta in *.
      split; [exact Hr|]. split; [right; destruct Hin as [-> | Hin]; [left; reflexivity | right; exact Hin]|].
      split; [eapply float_leb_trans; [| | | apply float_not_ltb_leb, Hlt | exact Hle]; assumption|].
      constructor; assumption.
Qed.

Lemma fold_min2_spec (series : list float) (acc : float) :
  is_nan acc = false ->
  Forall (fun x => is_nan x = false) series ->
  let r := fold_left Pd.min2 series acc in
  is_nan r = false
  /\ (r = acc \/ In r series)
  /\ (r <=? acc)%float = true
  /\ Forall (fun x => (r <=? x)%float = true) series.
Proof.
  revert acc. induction series as [|x series IH]; intros acc Hacc Hall; cbn zeta.
  - cbn. auto using float_leb_refl.
  - inversion Hall as [|? ? Hx Hrest]; subst. cbn [fold_left].
    assert (Hstep : Pd.min2 acc x = if (acc <? x)%float then acc else x)
      by (unfold Pd.min2; rewrite Hx, Hacc; reflexivity).
    rewrite Hstep. destruct (acc <? x)%float eqn:Hlt.
    + destruct (IH acc Hacc Hrest) as (Hr & Hin & Hle & Hfor). cbn zeta in *.
      split; [exact Hr|]. split; [destruct Hin as [-> | Hin]; [left; reflexivity | right; right; exact Hin]|].
      split; [exact Hle|].
      constructor; [|assumption].
      eapply float_leb_trans; [| | | exact Hle | apply float_ltb_leb, Hlt]; assumption.
    + destruct (IH x Hx Hrest) as (Hr & Hin & Hle & Hfor). cbn zeta in *.
      split; [exact Hr|]. split; [right; destruct Hin as [-> | Hin]; [left; reflexivity | right; exact Hin]|].
      split; [eapply float_leb_trans; [| | | exact Hle | apply float_not_ltb_leb, Hlt]; assumption|].
      constructor; assumption.
Qed.

(** On a series with at least one entry and no NaN, [Pd.max] is an entry of
    the series that no entry exceeds, and [Pd.min] one that exceeds none. *)
Lemma Pd_max_is_maximum (series : list float) :
  series <> [] ->
  Forall (fun x => is_nan x = false) series ->
  In (Pd.max series) series
  /\ Forall (fun x => (x <=? Pd.max series)%float = true) series.
Proof.
  destruct series as [|x series]; [congruence|]. intros _ Hall.
  inversion Hall as [|? ? Hx Hrest]; subst.
  unfold Pd.max. cbn [fold_left].
  replace (Pd.max2 nan x) with x by (unfold Pd.max2; rewrite Hx; reflexivity).
  destruct (fold_max2_spec series x Hx Hrest) as (_ & Hin & Hle & Hfor).
  cbn zeta in *. split.
  - destruct Hin as [-> | Hin]; [left; reflexivity | right; exact Hin].
  - constructor; assumption.
Qed.

Lemma Pd_min_is_minimum (series : list float) :
  series <> [] ->
  Forall (fun x => is_nan x = false) series ->
  In (Pd.min series) series
  /\ Forall (fun x => (Pd.min series <=? x)%float = true) series.
Proof.
  destruct series as [|x series]; [congruence|]. intros _ Hall.
  inversion Hall as [|? ? Hx Hrest]; subst.
  unfold Pd.min. cbn [fold_left].
  replace (Pd.min2 nan x) with x by (unfold Pd.min2; rewrite Hx; reflexivity).
  destruct (fold_min2_spec series x Hx Hrest) as (_ & Hin & Hle & Hfor).
  cbn zeta in *. split.
  - destruct Hin as [-> | Hin]; [left; reflexivity | right; exact Hin].
  - constructor; assumption.
Qed.

(** * Facts about [b64encode] *)

Lemma b64_char_in_alphabet (s : Base64.sextet) :
  Base64.is_b64_char (Base64.char s) = true.
Proof.
  destruct s as [[[[[b5 b4] b3] b2] b1] b0].
  destruct b5, b4, b3, b2, b1, b0; reflexivity.
Qed.

(** Induction on a list of bytes, three at a time. *)
Lemma list_ind3 {A : Type} (P : list A -> Prop) :
  P [] -> (forall x, P [x]) -> (forall x y, P [x; y]) ->
  (forall x y z rest, P rest -> P (x :: y :: z :: rest)) ->
  forall l, P l.
Proof.
  intros H0 H1 H2 H3.
  fix IH 1. intros [|x [|y [|z rest]]].
  - exact H0.
  - apply H1.
  - apply H2.
  - apply H3, IH.
Qed.

Lemma b64encode_valid (bs : list Byte.byte) :
  Base64.valid_base64 (Base64.b64encode bs) = true.
Proof.
  induction bs as [| x | x y | x y z rest IH] using list_ind3.
  - reflexivity.
  - cbn [Base64.b64encode].
    destruct (Byte.to_bits x) as (x0 & x1 & x2 & x3 & x4 & x5 & x6 & x7).
    cbn [Base64.valid_base64]. rewrite !b64_char_in_alphabet. reflexivity.
  - cbn [Base64.b64encode].
    destruct (Byte.to_bits x) as (x0 & x1 & x2 & x3 & x4 & x5 & x6 & x7).
    destruct (Byte.to_bits y) as (y0 & y1 & y2 & y3 & y4 & y5 & y6 & y7).
    cbn [Base64.valid_base64]. rewrite !b64_char_in_alphabet. reflexivity.
  - cbn [Base64.b64encode].
    destruct (Byte.to_bits x) as (x0 & x1 & x2 & x3 & x4 & x5 & x6 & x7).
    destruct (Byte.to_bits y) as (y0 & y1 & y2 & y3 & y4 & y5 & y6 & y7).
    destruct (Byte.to_bits z) as (z0 & z1 & z2 & z3 & z4 & z5 & z6 & z7).
    cbn [Base64.valid_base64]. rewrite !b64_char_in_alphabet, IH.
    destruct (Base64.b64encode rest); reflexivity.
Qed.

Lemma b64_char_value (s : Base64.sextet) :
  Base64.value_of (Base64.char s) = Some s.
Proof.
  destruct s as [[[[[b5 b4] b3] b2] b1] b0].
  destruct b5, b4, b3, b2, b1, b0; reflexivity.
Qed.

Lemma b64_char_not_pad (s : Base64.sextet) :
  Base64.is_pad (Base64.char s) = false.
Proof.
  destruct s as [[[[[b5 b4] b3] b2] b1] b0].
  destruct b5, b4, b3, b2, b1, b0; reflexivity.
Qed.

(** Decoding gives back the bytes that were encoded. *)
Lemma b64decode_b64encode (bs : list Byte.byte) :
  Base64.decode (Base64.b64encode bs) = Some bs.
Proof.
  induction bs as [| x | x y | x y z rest IH] using list_ind3.
  - reflexivity.
  - cbn [Base64.b64encode].
    destruct (Byte.to_bits x) as (x0 & x1 & x2 & x3 & x4 & x5 & x6 & x7) eqn:Ex.
    cbn [Base64.decode]. rewrite !b64_char_value.
    unfold Base64.byte_of. rewrite <- Ex, Byte.of_bits_to_bits. reflexivity.
  - cbn [Base64.b64encode].
    destruct (Byte.to_bits x) as (x0 & x1 & x2 & x3 & x4 & x5 & x6 & x7) eqn:Ex.
    destruct (Byte.to_bits y) as (y0 & y1 & y2 & y3 & y4 & y5 & y6 & y7) eqn:Ey.
    cbn [Base64.decode]. rewrite !b64_char_value, !b64_char_not_pad.
    unfold Base64.byte_of. rewrite <- Ex, <- Ey, !Byte.of_bits_to_bits. reflexivity.
  - cbn [Base64.b64encode].
    destruct (Byte.to_bits x) as (x0 & x1 & x2 & x3 & x4 & x5 & x6 & x7) eqn:Ex.
    destruct (Byte.to_bits y) as (y0 & y1 & y2 & y3 & y4 & y5 & y6 & y7) eqn:Ey.
    destruct (Byte.to_bits z) as (z0 & z1 & z2 & z3 & z4 & z5 & z6 & z7) eqn:Ez.
    cbn [Base64.decode]. rewrite !b64_char_value, !b64_char_not_pad, IH.
    unfold Base64.byte_of. rewrite <- Ex, <- Ey, <- Ez, !Byte.of_bits_to_bits.
    reflexivity.
Qed.

Lemma startswith_append (p s : string) : PyStr.startswith (p +:+ s) p = true.
Proof.
  induction p as [|c p IH]; simpl.
  - reflexivity.
  - rewrite Ascii.eqb_refl. exact IH.
Qed.

(** * Facts about the server *)

Section ServerFacts.

Variable history : string -> string -> string -> outcome (list Pd.Row).
Variable ticker_info : string -> outcome (gmap string value).
Variable mean : list float -> float.
Variable mean_int : list Z -> float.
Variable render_png :
  string -> string -> string -> string -> list Pd.Row -> outcome (list Byte.byte).
Variable float_str : float -> string.
Variable float_grouped : float -> string.
Variable dict_str : gmap string value -> string.

Local Abbreviation get_stock_data' := (get_stock_data history mean mean_int).
Local Abbreviation plot_stock_price' := (plot_stock_price history render_png).
Local Abbreviation compare_stocks' := (compare_stocks history mean mean_int).
Local Abbreviation read_stock_resource' :=
  (read_stock_resource ticker_info float_str float_grouped dict_str).
Local Abbreviation stats_of' := (stats_of mean).

Lemma iloc_first_map {A B : Type} (f : A -> B) (l : list A) (x : A) :
  head l = Some x -> Pd.iloc_first (map f l) = Return (f x).
Proof. destruct l; intros [= ->]; reflexivity. Qed.

Lemma iloc_last_map {A B : Type} (f : A -> B) (l : list A) (x : A) :
  last l = Some x -> Pd.iloc_last (map f l) = Return (f x).
Proof.
  intros H. unfold Pd.iloc_last.
  replace (last (map f l)) with (f <$> last l); [rewrite H; reflexivity|].
  clear H. induction l as [|a [|b l] IH]; try reflexivity. exact IH.
Qed.

Lemma get_stock_data_nonempty (ticker name start_date end_date : string)
    (start_formatted end_formatted : string) (data : list Pd.Row)
    (first last_ : Pd.Row) :
  parse_date start_date = Return start_formatted ->
  parse_date end_date = Return end_formatted ->
  history ticker start_formatted end_formatted = Return data ->
  head data = Some first -> last data = Some last_ ->
  get_stock_data' ticker name start_date end_date =
    match Np.to_int (mean_int (map Pd.Volume data)) with
    | Return volume =>
        Return (stats_of' ticker name start_formatted end_formatted data first last_ volume)
    | Raise e =>
        Return (error_result ("Failed to fetch data: " +:+ exn_str e) ticker name)
    end.
Proof.
  intros Hs He Hh Hfirst Hlast. unfold get_stock_data.
  rewrite Hs, He. cbn [bind]. rewrite Hh. cbn [bind].
  destruct data as [|r data]; [discriminate Hfirst|]. cbn [Pd.empty].
  rewrite (iloc_first_map _ _ _ Hfirst), (iloc_last_map _ _ _ Hlast). cbn [bind].
  destruct (Np.to_int _); reflexivity.
Qed.

Lemma get_stock_data_empty (ticker name start_date end_date : string)
    (start_formatted end_formatted : string) :
  parse_date start_date = Return start_formatted ->
  parse_date end_date = Return end_formatted ->
  history ticker start_formatted end_formatted = Return [] ->
  get_stock_data' ticker name start_date end_date
  = Return (error_result (no_data_message ticker) ticker name).
Proof.
  intros Hs He Hh. unfold get_stock_data.
  rewrite Hs, He. cbn [bind]. rewrite Hh. reflexivity.
Qed.

(** Every result of [get_stock_data] has one of the two shapes; the second
    one only when both dates were parsed. *)
Lemma get_stock_data_shape (ticker name start_date end_date : string) :
  (exists msg, get_stock_data' ticker name start_date end_date
               = Return (error_result msg ticker name))
  \/ (exists sf ef n o c h l a ch p v,
        parse_date start_date = Return sf
        /\ parse_date end_date = Return ef
        /\ get_stock_data' ticker name start_date end_date
           = Return (stats_result ticker name sf ef n o c h l a ch p v)).
Proof.
  unfold get_stock_data.
  destruct (parse_date start_date) as [sf|e]; [|left; eexists; reflexivity].
  destruct (parse_date end_date) as [ef|e]; [|left; eexists; reflexivity].
  cbn [bind].
  destruct (history ticker sf ef) as [data|e]; [|left; eexists; reflexivity].
  cbn [bind]. destruct data as [|r data]; [left; eexists; reflexivity|].
  cbn [Pd.empty].
  destruct (Pd.iloc_first _) as [o|e]; [|left; eexists; reflexivity].
  destruct (Pd.iloc_last _) as [c|e]; [|left; eexists; reflexivity].
  cbn [bind].
  destruct (Np.to_int _) as [v|e]; [|left; eexists; reflexivity].
  right. exists sf, ef. do 9 eexists. repeat split; reflexivity.
Qed.


Lemma error_result_lookups (msg t nm : string) :
  let d := error_result msg t nm in
  d !! "error" = Some (VStr msg)
  /\ d !! "ticker" = Some (VStr t)
  /\ d !! "name" = Some (VStr nm)
  /\ dom d = {[ "error"; "ticker"; "name" ]}.
Proof. repeat split; reflexivity. Qed.


(** C6: on an empty price series [get_stock_data] returns the "no data"
    result, whose message is [No data found for ticker <ticker> in the
    specified date range], with the ticker and the name, and
    [plot_stock_price] returns that message; neither raises. *)
Theorem empty_series_no_data (ticker name start_date end_date : string)
    (start_formatted end_formatted : string) :
  parse_date start_date = Return start_formatted ->
  parse_date end_date = Return end_formatted ->
  history ticker start_formatted end_formatted = Return [] ->
  get_stock_data' ticker name start_date end_date
    = Return {[ "error" := VStr ("No data found for ticker " +:+ ticker
                                 +:+ " in the specified date range");
                "ticker" := VStr ticker;
                "name" := VStr name ]}
  /\ plot_stock_price' ticker name start_date end_date
     = Return ("No data found for ticker " +:+ ticker
               +:+ " in the specified date range").
Proof.
  intros Hs He Hh. split.
  - apply (get_stock_data_empty _ _ _ _ _ _ Hs He Hh).
  - unfold plot_stock_price. rewrite Hs, He. cbn [bind]. rewrite Hh. reflexivity.
Qed.

Lemma try_except_returns {A : Type} (body : outcome A) (handler : exn -> A) :
  returns (try_except body (fun e => Return (handler e))).
Proof. destruct body as [a|e]; eexists; reflexivity. Qed.

(** C7: whatever the request and whatever the collaborators do, raising
    included, each of the four operations returns a value: a dictionary for
    [get_stock_data] and [compare_stocks], a text for [plot_stock_price] and
    [read_stock_resource]. *)
Theorem operations_never_raise (ticker name ticker2 start_date end_date : string) :
  returns (get_stock_data' ticker name start_date end_date)
  /\ returns (plot_stock_price' ticker name start_date end_date)
  /\ returns (compare_stocks' ticker ticker2 start_date end_date)
  /\ returns (read_stock_resource' ticker).
Proof. repeat split; apply try_except_returns. Qed.

(** What the operations return when a date is refused or a collaborator
    raises. *)
Lemma get_stock_data_bad_start_date (ticker name start_date end_date : string)
    (e : exn) :
  parse_date start_date = Raise e ->
  get_stock_data' ticker name start_date end_date
  = Return (error_result ("Failed to fetch data: " +:+ exn_str e) ticker name).
Proof. intros H. unfold get_stock_data. rewrite H. reflexivity. Qed.

Lemma get_stock_data_upstream_failure (ticker name start_date end_date : string)
    (start_formatted end_formatted : string) (e : exn) :
  parse_date start_date = Return start_formatted ->
  parse_date end_date = Return end_formatted ->
  history ticker start_formatted end_formatted = Raise e ->
  get_stock_data' ticker name start_date end_date
  = Return (error_result ("Failed to fetch data: " +:+ exn_str e) ticker name).
Proof.
  intros Hs He Hh. unfold get_stock_data. rewrite Hs, He. cbn [bind].
  rewrite Hh. reflexivity.
Qed.

Lemma plot_stock_price_upstream_failure (ticker name start_date end_date : string)
    (start_formatted end_formatted : string) (data : list Pd.Row) (e : exn) :
  parse_date start_date = Return start_formatted ->
  parse_date end_date = Return end_formatted ->
  history ticker start_formatted end_formatted = Return data ->
  data <> [] ->
  render_png ticker name start_formatted end_formatted data = Raise e ->
  plot_stock_price' ticker name start_date end_date
  = Return ("Failed to create plot: " +:+ exn_str e).
Proof.
  intros Hs He Hh Hne Hr. unfold plot_stock_price. rewrite Hs, He. cbn [bind].
  rewrite Hh. cbn [bind]. destruct data; [congruence|]. cbn [Pd.empty].
  rewrite Hr. reflexivity.
Qed.

Lemma read_stock_resource_upstream_failure (ticker : string) (e : exn) :
  ticker_info ticker = Raise e ->
  read_stock_resource' ticker
  = Return ("Error fetching stock resource: " +:+ exn_str e).
Proof. intros H. unfold read_stock_resource. rewrite H. reflexivity. Qed.

(** C10: when the first record's open is zero the division is not guarded:
    the result is the statistics record, not an error, and its percentage
    change is the rounded quotient by zero, an infinity or a NaN. *)
Theorem zero_open_percentage_not_finite
    (ticker name start_date end_date : string)
    (start_formatted end_formatted : string) (data : list Pd.Row)
    (first last_ : Pd.Row) (volume : Z) :
  parse_date start_date = Return start_formatted ->
  parse_date end_date = Return end_formatted ->
  history ticker start_formatted end_formatted = Return data ->
  head data = Some first ->
  last data = Some last_ ->
  Np.to_int (mean_int (map Pd.Volume data)) = Return volume ->
  (Pd.Open first =? 0)%float = true ->
  exists stats p,
    get_stock_data' ticker name start_date end_date = Return stats
    /\ stats !! "error" = None
    /\ stats !! "percentage_change" = Some (VFloat p)
    /\ p = Np.round ((Pd.Close last_ / Pd.Open first - 1) * 100) 2
    /\ Np.is_finite p = false.
Proof.
  intros Hs He Hh Hfirst Hlast Hvol Hzero.
  rewrite (get_stock_data_nonempty _ _ _ _ _ _ _ _ _ Hs He Hh Hfirst Hlast), Hvol.
  do 2 eexists. split; [reflexivity|].
  split; [reflexivity|]. split; [reflexivity|]. split; [reflexivity|].
  apply percentage_of_zero_open, Hzero.
Qed.

Lemma contains_error_result (msg t nm : string) :
  contains (error_result msg t nm) "error" = true.
Proof. reflexivity. Qed.

Lemma contains_stats_result (t nm sf ef : string) (n : Z)
    (o c h l a ch p : float) (v : Z) :
  contains (stats_result t nm sf ef n o c h l a ch p v) "error" = false.
Proof. reflexivity. Qed.

(** What a leg reports under [stock1_error] or [stock2_error]: its own
    error message when it failed, ["No error"] when it did not. *)
Lemma leg_error_text (ticker name start_date end_date : string)
    (d : gmap string value) :
  get_stock_data' ticker name start_date end_date = Return d ->
  exists msg : string,
    get d "error" (VStr "No error") = VStr msg
    /\ (contains d "error" = true -> d !! "error" = Some (VStr msg))
    /\ (contains d "error" = false -> msg = "No error").
Proof.
  intros Hd.
  destruct (get_stock_data_shape ticker name start_date end_date)
    as [[msg H] | (sf & ef & n & o & c & h & l & a & ch & p & v & _ & _ & H)];
    rewrite H in Hd; injection Hd as <-.
  - exists msg. split; [reflexivity|]. split; [intros _; reflexivity | discriminate].
  - exists "No error". split; [reflexivity|]. split; [discriminate | reflexivity].
Qed.

(** C5: when a leg of [compare_stocks] reports "no data" or fails, the
    result is the combined error: the entry of each leg carries that leg's
    error message, or ["No error"] for a leg that succeeded, and nothing else
    is in it, none of the numbers of a succeeding leg. *)
Theorem compare_stocks_leg_failure (ticker1 ticker2 start_date end_date : string)
    (stock1_data stock2_data : gmap string value) :
  get_stock_data' ticker1 ticker1 start_date end_date = Return stock1_data ->
  get_stock_data' ticker2 ticker2 start_date end_date = Return stock2_data ->
  contains stock1_data "error" = true \/ contains stock2_data "error" = true ->
  exists (msg1 msg2 : string) (result : gmap string value),
    compare_stocks' ticker1 ticker2 start_date end_date = Return result
    /\ result = {[ "error" := VStr "Failed to get data for one or both stocks";
                   "stock1_error" := VStr msg1;
                   "stock2_error" := VStr msg2 ]}
    /\ (contains stock1_data "error" = true ->
        stock1_data !! "error" = Some (VStr msg1))
    /\ (contains stock1_data "error" = false -> msg1 = "No error")
    /\ (contains stock2_data "error" = true ->
        stock2_data !! "error" = Some (VStr msg2))
    /\ (contains stock2_data "error" = false -> msg2 = "No error")
    /\ dom result = {[ "error"; "stock1_error"; "stock2_error" ]}
    /\ (forall key v, result !! key = Some v -> is_str v = true).
Proof.
  intros H1 H2 Herr.
  destruct (leg_error_text _ _ _ _ _ H1) as (msg1 & G1 & A1 & B1).
  destruct (leg_error_text _ _ _ _ _ H2) as (msg2 & G2 & A2 & B2).
  exists msg1, msg2. eexists. split; [|split; [reflexivity|]].
  - unfold compare_stocks. rewrite H1, H2. cbn [bind try_except].
    replace (contains stock1_data "error" || contains stock2_data "error")
      with true by (symmetry; apply orb_true_iff; exact Herr).
    rewrite G1, G2. reflexivity.
  - repeat split; try assumption.
    intros key v Hkv.
    apply lookup_insert_Some in Hkv as [[_ <-] | [_ Hkv]]; [reflexivity|].
    apply lookup_insert_Some in Hkv as [[_ <-] | [_ Hkv]]; [reflexivity|].
    apply lookup_singleton_Some in Hkv as [_ <-]. reflexivity.
Qed.


Lemma getitem_stats_result (t nm sf ef : string) (n : Z)
    (o c h l a ch p : float) (v : Z) :
  let d := stats_result t nm sf ef n o c h l a ch p v in
  getitem d "percentage_change" = Return (VFloat p)
  /\ getitem d "price_change" = Return (VFloat ch)
  /\ getitem d "closing_price" = Return (VFloat c).
Proof. repeat split; reflexivity. Qed.


(** C8: with the dates parsed and the series fetched, a non-empty series
    whose chart is drawn gives the prefix [data:image/png;base64,] followed
    by valid base64 text, which decodes to the bytes of the chart; a
    non-empty series whose drawing raises gives [Failed to create plot: ]
    and the text of the exception, and an empty series gives the [No data
    found ...] message: two plain texts that do not start with that
    prefix. *)
Theorem plot_stock_price_data_uri (ticker name start_date end_date : string)
    (start_formatted end_formatted : string) (data : list Pd.Row) :
  parse_date start_date = Return start_formatted ->
  parse_date end_date = Return end_formatted ->
  history ticker start_formatted end_formatted = Return data ->
  (data <> [] ->
   forall png,
     render_png ticker name start_formatted end_formatted data = Return png ->
     exists body,
       plot_stock_price' ticker name start_date end_date
         = Return ("data:image/png;base64," +:+ body)
       /\ PyStr.startswith ("data:image/png;base64," +:+ body)
            "data:image/png;base64," = true
       /\ PyStr.drop 22 ("data:image/png;base64," +:+ body) = body
       /\ Base64.valid_base64 body = true
       /\ Base64.decode body = Some png)
  /\ (data <> [] ->
      forall e,
        render_png ticker name start_formatted end_formatted data = Raise e ->
        plot_stock_price' ticker name start_date end_date
          = Return ("Failed to create plot: " +:+ exn_str e)
        /\ PyStr.startswith ("Failed to create plot: " +:+ exn_str e)
             "data:image/png;base64," = false)
  /\ (data = [] ->
      plot_stock_price' ticker name start_date end_date
        = Return ("No data found for ticker " +:+ ticker
                  +:+ " in the specified date range")
      /\ PyStr.startswith ("No data found for ticker " +:+ ticker
                           +:+ " in the specified date range")
           "data:image/png;base64," = false).
Proof.
  intros Hs He Hh. split; [|split].
  - intros Hne png Hpng. exists (Base64.b64encode png).
    split; [|split; [apply (startswith_append png_prefix) | split; [reflexivity |]]].
    2:{ split; [apply b64encode_valid | apply b64decode_b64encode]. }
    unfold plot_stock_price. rewrite Hs, He. cbn [bind]. rewrite Hh. cbn [bind].
    destruct data as [|r data]; [contradiction Hne; reflexivity|].
    cbn [Pd.empty]. rewrite Hpng. reflexivity.
  - intros Hne e Hpng. split; [|reflexivity].
    unfold plot_stock_price. rewrite Hs, He. cbn [bind]. rewrite Hh. cbn [bind].
    destruct data as [|r data]; [contradiction Hne; reflexivity|].
    cbn [Pd.empty]. rewrite Hpng. reflexivity.
  - intros ->. split; [|reflexivity].
    unfold plot_stock_price. rewrite Hs, He. cbn [bind]. rewrite Hh. reflexivity.
Qed.

(** C8 as it was worded, for every non-empty series, fails when the drawing
    raises: the listing [MSFT] has two rows, its chart cannot be drawn, and
    the text returned is the message of the failure, which does not start
    with the prefix. *)
Lemma plot_stock_price_drawing_fails :
  Sample.history "MSFT" "2024-01-01" "2024-01-31" = Return Sample.msft
  /\ Sample.msft <> []
  /\ plot_stock_price Sample.history Sample.render_png
       "MSFT" "Microsoft" "01012024" "01312024"
     = Return "Failed to create plot: main thread is not in main loop"
  /\ PyStr.startswith "Failed to create plot: main thread is not in main loop"
       "data:image/png;base64," = false.
Proof.
  split; [reflexivity|]. split; [discriminate|].
  split; [vm_compute; reflexivity|reflexivity].
Qed.

(** A failure of the collaborators gives a message without the prefix too. *)
Lemma plot_stock_price_failure_text (e : exn) :
  PyStr.startswith ("Failed to create plot: " +:+ exn_str e) png_prefix = false.
Proof. reflexivity. Qed.

Local Abbreviation value_str' := (value_str float_str dict_str).

(** With an integer market capitalisation the block is written, [N/A]
    standing for every other field the snapshot lacks. *)
Lemma read_stock_resource_block (ticker : string) (info : gmap string value)
    (cap : Z) :
  ticker_info ticker = Return info ->
  info !! "marketCap" = Some (VInt cap) ->
  read_stock_resource' ticker
  = Return (resource_text ticker
              (value_str' (get info "longName" NA))
              (value_str' (get info "sector" NA))
              (value_str' (get info "industry" NA))
              (value_str' (get info "currentPrice" NA))
              (group_thousands cap)
              (value_str' (get info "fiftyTwoWeekHigh" NA))
              (value_str' (get info "fiftyTwoWeekLow" NA))).
Proof.
  intros Hinfo Hcap. unfold read_stock_resource. rewrite Hinfo. cbn [bind].
  unfold get. rewrite Hcap. reflexivity.
Qed.

Lemma absent_field_placeholder (info : gmap string value) (key : string) :
  info !! key = None -> value_str' (get info key NA) = "N/A".
Proof. intros H. unfold get. rewrite H. reflexivity. Qed.

(** C9 (the code departs from the claim): a snapshot without a market
    capitalisation does not get the block with a placeholder; the
    thousands separator is refused on the placeholder text and the
    operation returns the error text. *)
Theorem read_stock_resource_without_market_cap (ticker : string)
    (info : gmap string value) :
  ticker_info ticker = Return info ->
  info !! "marketCap" = None ->
  read_stock_resource' ticker
  = Return "Error fetching stock resource: Cannot specify ',' with 's'.".
Proof.
  intros Hinfo Hcap. unfold read_stock_resource. rewrite Hinfo. cbn [bind].
  unfold get. rewrite Hcap. reflexivity.
Qed.

End ServerFacts.

(** * The date codec *)




(** Eight decimal digits that spell no real date are refused, with the error
    that carries the token. *)
Lemma parse_date_unreal_calendar_date (token : string) :
  String.length token = 8%nat ->
  PyStr.all_digits token = true ->
  ~ real_calendar_date (decimal (token_year token)) (decimal (token_month token))
      (decimal (token_day token)) ->
  parse_date token = Raise (invalid_date_format token).
Proof.
  intros Hlen Hdig Hunreal.
  rewrite (parse_date_eight_digits token Hlen Hdig).
  destruct (real_calendar_dateb _ _ _) eqn:Hb; [|reflexivity].
  apply real_calendar_dateb_spec in Hb. contradiction.
Qed.

(** C3 (the code departs from the claim): the six-character token [010124]
    is not refused; its last two characters are read as the year 24. *)
Theorem parse_date_accepts_short_token :
  parse_date "010124" = Return "24-01-01".
Proof. vm_compute. reflexivity. Qed.

(** * The server on the sample market *)

Example parse_date_ex1 : parse_date "01012024" = Return "2024-01-01".
Proof. vm_compute. reflexivity. Qed.

Example parse_date_ex2 : parse_date "12312023" = Return "2023-12-31".
Proof. vm_compute. reflexivity. Qed.

Example parse_date_ex3 : parse_date "02292024" = Return "2024-02-29".
Proof. vm_compute. reflexivity. Qed.

Example parse_date_ex4 :
  parse_date "02292023" = Raise (invalid_date_format "02292023").
Proof. vm_compute. reflexivity. Qed.

Example parse_date_ex5 :
  parse_date "abc12024" = Raise (invalid_date_format "abc12024").
Proof. vm_compute. reflexivity. Qed.

Example parse_date_ex6 :
  parse_date "13012024" = Raise (invalid_date_format "13012024").
Proof. vm_compute. reflexivity. Qed.

Example parse_date_ex7 :
  parse_date "01322024" = Raise (invalid_date_format "01322024").
Proof. vm_compute. reflexivity. Qed.

(** There is no year 0. *)
Example parse_date_ex8 :
  parse_date "01010000" = Raise (invalid_date_format "01010000").
Proof. vm_compute. reflexivity. Qed.

(** Seven characters, a sign in a field, and a year too long for a C [int]:
    the first two are accepted, the last leaves with an [OverflowError]. *)
Example parse_date_ex9 : parse_date "0101202" = Return "202-01-01".
Proof. vm_compute. reflexivity. Qed.

Example parse_date_ex10 : parse_date "+1+12024" = Return "2024-01-01".
Proof. vm_compute. reflexivity. Qed.

Example parse_date_ex11 :
  exists msg, parse_date "010199999999999" = Raise (Exn OverflowError msg).
Proof. eexists. vm_compute. reflexivity. Qed.

(** A tab before a field is skipped by [int]; U+001C is not, and the token
    is refused. *)
Example parse_date_ex12 :
  parse_date (String (ascii_of_nat 9) "1012024") = Return "2024-01-01".
Proof. vm_compute. reflexivity. Qed.

Example parse_date_ex13 :
  parse_date (String (ascii_of_nat 28) "1012024")
  = Raise (invalid_date_format (String (ascii_of_nat 28) "1012024")).
Proof. vm_compute. reflexivity. Qed.

(** Of the two zeros the later one is the maximum, and the minimum. *)
Example Pd_max_zeros : Pd.max [0; -0]%float = (-0)%float.
Proof. vm_compute. reflexivity. Qed.

Example Pd_min_zeros : Pd.min [-0; 0]%float = 0%float.
Proof. vm_compute. reflexivity. Qed.

(** A float takes the thousands separator in its whole part. *)
Example float_grouped_ex1 : Sample.float_grouped 4793.5 = "4,793.5".
Proof. vm_compute. reflexivity. Qed.

Example float_grouped_ex2 : Sample.float_grouped 189.5 = "189.5".
Proof. vm_compute. reflexivity. Qed.

Example float_grouped_ex3 :
  Sample.float_grouped 2890000000000.25 = "2,890,000,000,000.25".
Proof. vm_compute. reflexivity. Qed.

(** [int] of a float drops the fraction, toward zero. *)
Example to_int_ex1 : Np.to_int 2.75 = Return 2.
Proof. vm_compute. reflexivity. Qed.

Example to_int_ex2 : Np.to_int (-2.75) = Return (-2).
Proof. vm_compute. reflexivity. Qed.

Example to_int_ex3 : exists msg, Np.to_int nan = Raise (Exn ValueError msg).
Proof. eexists. vm_compute. reflexivity. Qed.

(** [rint] takes a tie to the even neighbour. *)
Example rint_ex1 : Np.rint 2.5 = 2%float /\ Np.rint 3.5 = 4%float.
Proof. split; vm_compute; reflexivity. Qed.

Example rint_ex2 : Np.rint (-0.25) = (-0)%float.
Proof. vm_compute. reflexivity. Qed.

Example b64encode_ex1 :
  Base64.b64encode [Byte.x4d; Byte.x61; Byte.x6e] = "TWFu".
Proof. reflexivity. Qed.

Example b64encode_ex2 : Base64.b64encode [Byte.x4d; Byte.x61] = "TWE=".
Proof. reflexivity. Qed.

Example b64encode_ex3 : Base64.b64encode [Byte.x4d] = "TQ==".
Proof. reflexivity. Qed.

Example group_thousands_ex1 :
  group_thousands 2890000000000 = "2,890,000,000,000".
Proof. vm_compute. reflexivity. Qed.

Example group_thousands_ex2 : group_thousands (-1234) = "-1,234".
Proof. vm_compute. reflexivity. Qed.

Example group_thousands_ex3 : group_thousands 999 = "999".
Proof. vm_compute. reflexivity. Qed.

(** The unrounded percentage of a rise from 100 to 110 is not 10. *)
Example percentage_before_rounding :
  ((110 / 100 - 1) * 100)%float = 0x1.4000000000005p+3%float
  /\ Np.round ((110 / 100 - 1) * 100) 2 = 10%float.
Proof. split; vm_compute; reflexivity. Qed.




Example percentage_changes_before_rounding :
  ((280 / 250 - 1) * 100)%float = 0x1.8000000000006p+3%float
  /\ ((432 / 400 - 1) * 100)%float = 0x1.0000000000004p+3%float.
Proof. split; vm_compute; reflexivity. Qed.

Lemma compare_stocks_leg_failure_witness :
  exists (msg1 msg2 : string) (result : gmap string value),
    compare_stocks Sample.history Sample.mean Sample.mean_int
      "AAPL" "EMPTY" "01012024" "01312024" = Return result
    /\ result = {[ "error" := VStr "Failed to get data for one or both stocks";
                   "stock1_error" := VStr msg1;
                   "stock2_error" := VStr msg2 ]}
    /\ (contains Sample.aapl_stats "error" = true ->
        Sample.aapl_stats !! "error" = Some (VStr msg1))
    /\ (contains Sample.aapl_stats "error" = false -> msg1 = "No error")
    /\ (contains Sample.empty_stats "error" = true ->
        Sample.empty_stats !! "error" = Some (VStr msg2))
    /\ (contains Sample.empty_stats "error" = false -> msg2 = "No error")
    /\ dom result = {[ "error"; "stock1_error"; "stock2_error" ]}
    /\ (forall key v, result !! key = Some v -> is_str v = true).
Proof.
  exact (compare_stocks_leg_failure Sample.history Sample.mean Sample.mean_int
           "AAPL" "EMPTY" "01012024" "01312024"
           Sample.aapl_stats Sample.empty_stats
           eq_refl eq_refl (or_intror eq_refl)).
Defined.

Lemma empty_series_no_data_witness :
  get_stock_data Sample.history Sample.mean Sample.mean_int
    "EMPTY" "Nothing listed" "01012024" "01312024"
    = Return {[ "error" :=
                  VStr "No data found for ticker EMPTY in the specified date range";
                "ticker" := VStr "EMPTY";
                "name" := VStr "Nothing listed" ]}
  /\ plot_stock_price Sample.history Sample.render_png
       "EMPTY" "Nothing listed" "01012024" "01312024"
     = Return "No data found for ticker EMPTY in the specified date range".
Proof.
  exact (empty_series_no_data Sample.history Sample.mean Sample.mean_int
           Sample.render_png "EMPTY" "Nothing listed" "01012024" "01312024"
           "2024-01-01" "2024-01-31" eq_refl eq_refl eq_refl).
Defined.

Lemma plot_stock_price_data_uri_witness :
  exists body,
    plot_stock_price Sample.history Sample.render_png
      "ACME" "Acme Corp" "01012024" "01312024"
      = Return ("data:image/png;base64," +:+ body)
    /\ PyStr.startswith ("data:image/png;base64," +:+ body)
         "data:image/png;base64," = true
    /\ PyStr.drop 22 ("data:image/png;base64," +:+ body) = body
    /\ Base64.valid_base64 body = true
    /\ Base64.decode body = Some Sample.png_signature.
Proof.
  refine (proj1 (plot_stock_price_data_uri Sample.history Sample.render_png
                   "ACME" "Acme Corp" "01012024" "01312024"
                   "2024-01-01" "2024-01-31" Sample.acme
                   eq_refl eq_refl eq_refl) _ Sample.png_signature eq_refl).
  discriminate.
Defined.

Example plot_stock_price_sample :
  plot_stock_price Sample.history Sample.render_png
    "ACME" "Acme Corp" "01012024" "01312024"
  = Return "data:image/png;base64,iVBORw0KGgo=".
Proof. vm_compute. reflexivity. Qed.

Lemma read_stock_resource_without_market_cap_witness :
  read_stock_resource Sample.ticker_info Sample.float_str Sample.float_grouped
    Sample.dict_str "^GSPC"
  = Return "Error fetching stock resource: Cannot specify ',' with 's'.".
Proof.
  exact (read_stock_resource_without_market_cap Sample.ticker_info
           Sample.float_str Sample.float_grouped Sample.dict_str
           "^GSPC" Sample.index_info eq_refl eq_refl).
Defined.

(** A fund has no sector and no industry: the block is written with [N/A]
    in their place. *)
Example read_stock_resource_fund :
  read_stock_resource Sample.ticker_info Sample.float_str Sample.float_grouped
    Sample.dict_str "SPY"
  = Return (resource_text "SPY" "SPDR S&P 500 ETF Trust" "N/A" "N/A" "470.5"
              "432,000,000,000" "479.75" "380.5").
Proof. vm_compute. reflexivity. Qed.

Lemma zero_open_percentage_not_finite_witness :
  exists stats p,
    get_stock_data Sample.history Sample.mean Sample.mean_int
      "ZERO" "Zero Corp" "01012024" "01312024" = Return stats
    /\ stats !! "error" = None
    /\ stats !! "percentage_change" = Some (VFloat p)
    /\ p = Np.round ((2 / 0 - 1) * 100) 2
    /\ Np.is_finite p = false.
Proof.
  exact (zero_open_percentage_not_finite Sample.history Sample.mean
           Sample.mean_int "ZERO" "Zero Corp" "01012024" "01312024"
           "2024-01-01" "2024-01-31" Sample.zero
           (Pd.mkRow "2024-01-02" 0 2 0 1 500)
           (Pd.mkRow "2024-01-03" 1 3 1 2 700)
           600 eq_refl eq_refl eq_refl eq_refl eq_refl eq_refl eq_refl).
Defined.

Example zero_open_sample :
  exists stats,
    get_stock_data Sample.history Sample.mean Sample.mean_int
      "ZERO" "Zero Corp" "01012024" "01312024" = Return stats
    /\ stats !! "percentage_change" = Some (VFloat infinity).
Proof. eexists. split; vm_compute; reflexivity. Qed.

(** * More about the date codec *)

Lemma int_raises_value_error (s : string) (e : exn) :
  PyStr.int s = Raise e -> exn_kind e = ValueError.
Proof.
  unfold PyStr.int.
  destruct (match PyStr.strip s with
            | String "-"%char r => (true, r)
            | String "+"%char r => (false, r)
            | _ => (false, PyStr.strip s)
            end) as [neg ds].
  destruct (PyStr.max_str_digits <? PyStr.count_digits ds)%nat.
  - intros [= <-]. reflexivity.
  - destruct (PyStr.parse_digits 0 false ds); [discriminate|].
    intros [= <-]. reflexivity.
Qed.

Lemma make_returns (y m d : Z) (dt : Datetime.datetime) :
  Datetime.make y m d = Return dt ->
  real_calendar_date y m d /\ dt = Datetime.Build y m d.
Proof.
  unfold Datetime.make, Datetime.MINYEAR, Datetime.MAXYEAR.
  destruct (Datetime.fits_c_int y); cbn [negb]; [|discriminate].
  destruct (Datetime.fits_c_int m); cbn [negb]; [|discriminate].
  destruct (Datetime.fits_c_int d); cbn [negb]; [|discriminate].
  destruct ((1 <=? y) && (y <=? 9999)) eqn:Ey; cbn [negb]; [|discriminate].
  destruct ((1 <=? m) && (m <=? 12)) eqn:Em; cbn [negb]; [|discriminate].
  destruct ((1 <=? d) && (d <=? Datetime.days_in_month y m)) eqn:Ed;
    cbn [negb]; [|discriminate].
  intros [= <-]. split; [|reflexivity].
  apply andb_true_iff in Ey as [?%Z.leb_le ?%Z.leb_le].
  apply andb_true_iff in Em as [?%Z.leb_le ?%Z.leb_le].
  apply andb_true_iff in Ed as [?%Z.leb_le ?%Z.leb_le].
  unfold real_calendar_date. lia.
Qed.

Lemma make_raises (y m d : Z) (e : exn) :
  Datetime.make y m d = Raise e ->
  exn_kind e = ValueError \/ exn_kind e = OverflowError.
Proof.
  unfold Datetime.make, Datetime.c_int_overflow.
  repeat match goal with
         | |- context [if ?b then Raise _ else _] => destruct b
         end;
    intros [= <-]; cbn; auto.
Qed.

Lemma digit_val_char (k : Z) :
  0 <= k <= 9 -> PyStr.digit_val (PyStr.digit_char k) = k.
Proof.
  intros Hk. unfold PyStr.digit_val, PyStr.digit_char, PyStr.code.
  rewrite nat_ascii_embedding by lia. lia.
Qed.

Lemma append_cons (c : ascii) (s t : string) :
  String c s +:+ t = String c (s +:+ t).
Proof. reflexivity. Qed.

Lemma append_nil (t : string) : EmptyString +:+ t = t.
Proof. reflexivity. Qed.

Lemma decimal_fmt_Y (y : Z) :
  0 <= y < 10000 -> decimal (Datetime.fmt_Y y) = y.
Proof.
  intros Hy. unfold Datetime.fmt_Y.
  destruct (Z.ltb_spec y 10);
    [|destruct (Z.ltb_spec y 100); [|destruct (Z.ltb_spec y 1000)]];
    unfold Datetime.digit, decimal; rewrite ?append_cons, ?append_nil;
    cbn [decimal_from];
    rewrite !digit_val_char by (Z.div_mod_to_equations; lia);
    Z.div_mod_to_equations; lia.
Qed.

Lemma decimal_fmt_2 (n : Z) :
  0 <= n < 100 -> decimal (Datetime.fmt_2 n) = n.
Proof.
  intros Hn. unfold Datetime.fmt_2, Datetime.digit, decimal.
  rewrite !append_cons, !append_nil. cbn [decimal_from].
  rewrite !digit_val_char by (Z.div_mod_to_equations; lia).
  Z.div_mod_to_equations. lia.
Qed.

Lemma days_in_month_range (y m : Z) : 28 <= Datetime.days_in_month y m <= 31.
Proof.
  unfold Datetime.days_in_month.
  repeat match goal with |- context [if ?b then _ else _] => destruct b end; lia.
Qed.

(** The text of a date, read back: the year is everything before the last
    six characters, and the text has ten characters exactly when the year
    has four digits. *)
Lemma strftime_Ymd_fields (y m d : Z) :
  1 <= y <= 9999 -> 0 <= m < 100 -> 0 <= d < 100 ->
  let iso := Datetime.fmt_Y y +:+ "-" +:+ Datetime.fmt_2 m +:+ "-"
             +:+ Datetime.fmt_2 d in
  (7 <= String.length iso <= 10)%nat
  /\ (String.length iso = 10%nat <-> 1000 <= y)
  /\ decimal (String.substring 0 (String.length iso - 6) iso) = y
  /\ String.substring (String.length iso - 6) 1 iso = "-"
  /\ decimal (String.substring (String.length iso - 5) 2 iso) = m
  /\ String.substring (String.length iso - 3) 1 iso = "-"
  /\ decimal (String.substring (String.length iso - 2) 2 iso) = d.
Proof.
  intros Hy Hm Hd. unfold Datetime.fmt_Y.
  destruct (Z.ltb_spec y 10);
    [|destruct (Z.ltb_spec y 100); [|destruct (Z.ltb_spec y 1000)]];
    unfold Datetime.fmt_2, Datetime.digit; cbn zeta;
    repeat (rewrite append_cons || rewrite append_nil);
    cbn [String.length Nat.sub String.substring];
    unfold decimal; cbn [decimal_from];
    rewrite !digit_val_char by (Z.div_mod_to_equations; lia);
    repeat split; intros;
    first [reflexivity | lia | (Z.div_mod_to_equations; lia)].
Qed.

(** X1: whatever the input, a text [parse_date] returns spells a real
    calendar date: the year as a decimal number, then [-MM-DD].  Read back,
    its fields are the year, month and day of a date that exists; it has
    ten characters, the form [YYYY-MM-DD], exactly when the year is 1000 or
    more, and between seven and nine for an earlier year. *)
Theorem parse_date_returns_real_date (date_str iso : string) :
  parse_date date_str = Return iso ->
  exists y m d,
    real_calendar_date y m d
    /\ (7 <= String.length iso <= 10)%nat
    /\ (String.length iso = 10%nat <-> 1000 <= y)
    /\ decimal (String.substring 0 (String.length iso - 6) iso) = y
    /\ String.substring (String.length iso - 6) 1 iso = "-"
    /\ decimal (String.substring (String.length iso - 5) 2 iso) = m
    /\ String.substring (String.length iso - 3) 1 iso = "-"
    /\ decimal (String.substring (String.length iso - 2) 2 iso) = d.
Proof.
  unfold parse_date.
  destruct (PyStr.int (PyStr.drop 4 date_str)) as [y|e]; cbn [bind try_except_in];
    [|destruct (is_value_or_index_error (exn_kind e)); discriminate].
  destruct (PyStr.int (PyStr.slice 0 2 date_str)) as [m|e]; cbn [bind try_except_in];
    [|destruct (is_value_or_index_error (exn_kind e)); discriminate].
  destruct (PyStr.int (PyStr.slice 2 4 date_str)) as [d|e]; cbn [bind try_except_in];
    [|destruct (is_value_or_index_error (exn_kind e)); discriminate].
  destruct (Datetime.make y m d) as [dt|e] eqn:Hmake; cbn [bind try_except_in];
    [|destruct (is_value_or_index_error (exn_kind e)); discriminate].
  intros [= <-].
  apply make_returns in Hmake as [Hreal ->].
  exists y, m, d. split; [exact Hreal|].
  destruct Hreal as (Hy & Hm & Hd). pose proof (days_in_month_range y m).
  unfold Datetime.strftime_Ymd. cbn [Datetime.year Datetime.month Datetime.day].
  apply strftime_Ymd_fields; lia.
Qed.

Lemma parse_date_returns_real_date_witness :
  exists y m d,
    real_calendar_date y m d
    /\ (7 <= String.length "24-01-01" <= 10)%nat
    /\ (String.length "24-01-01" = 10%nat <-> 1000 <= y)
    /\ decimal (String.substring 0 (String.length "24-01-01" - 6) "24-01-01") = y
    /\ String.substring (String.length "24-01-01" - 6) 1 "24-01-01" = "-"
    /\ decimal (String.substring (String.length "24-01-01" - 5) 2 "24-01-01") = m
    /\ String.substring (String.length "24-01-01" - 3) 1 "24-01-01" = "-"
    /\ decimal (String.substring (String.length "24-01-01" - 2) 2 "24-01-01") = d.
Proof.
  exact (parse_date_returns_real_date "010124" "24-01-01" eq_refl).
Defined.

(** ** How large a number [int] can read from a short text *)

Lemma length_rev_app (s acc : string) :
  String.length (PyStr.rev_app s acc) = (String.length s + String.length acc)%nat.
Proof.
  revert acc. induction s as [|c s IH]; intros acc; cbn [PyStr.rev_app String.length].
  - reflexivity.
  - rewrite IH. cbn [String.length]. lia.
Qed.

Lemma length_rev (s : string) : String.length (PyStr.rev s) = String.length s.
Proof. unfold PyStr.rev. rewrite length_rev_app. cbn [String.length]. lia. Qed.

Lemma length_lstrip (s : string) :
  (String.length (PyStr.lstrip s) <= String.length s)%nat.
Proof.
  induction s as [|c s IH]; cbn [PyStr.lstrip String.length]; [lia|].
  destruct (PyStr.is_space c); cbn [String.length]; lia.
Qed.

Lemma length_strip (s : string) :
  (String.length (PyStr.strip s) <= String.length s)%nat.
Proof.
  unfold PyStr.strip, PyStr.rstrip. rewrite length_rev.
  pose proof (length_lstrip (PyStr.rev (PyStr.lstrip s))) as H1.
  rewrite length_rev in H1. pose proof (length_lstrip s). lia.
Qed.

Lemma parse_digits_bound (s : string) (acc : Z) (prev : bool) (v : Z) :
  0 <= acc ->
  PyStr.parse_digits acc prev s = Some v ->
  0 <= v < (acc + 1) * 10 ^ Z.of_nat (String.length s).
Proof.
  revert acc prev. induction s as [|c s IH]; intros acc prev Hacc;
    cbn [PyStr.parse_digits String.length].
  - destruct prev; [|discriminate]. intros [= <-]. cbn. lia.
  - rewrite Nat2Z.inj_succ, Z.pow_succ_r by lia.
    assert (Hpow : 0 < 10 ^ Z.of_nat (String.length s)) by (apply Z.pow_pos_nonneg; lia).
    destruct (PyStr.is_digit c) eqn:Hc.
    + pose proof (digit_val_range c Hc) as Hrange. intros Hv.
      apply IH in Hv; [|lia]. nia.
    + destruct (Ascii.eqb c "_"%char); [|discriminate].
      destruct prev; [|discriminate]. intros Hv. apply IH in Hv; [|lia]. nia.
Qed.

Lemma int_bound (s : string) (v : Z) :
  PyStr.int s = Return v -> Z.abs v < 10 ^ Z.of_nat (String.length s).
Proof.
  unfold PyStr.int. pose proof (length_strip s) as Hlen.
  assert (Hsplit : forall neg ds,
    match PyStr.strip s with
    | String "-"%char r => (true, r)
    | String "+"%char r => (false, r)
    | _ => (false, PyStr.strip s)
    end = (neg, ds) -> (String.length ds <= String.length s)%nat).
  { intros neg ds. destruct (PyStr.strip s) as [|c r]; [intros [= <- <-]; exact Hlen|].
    cbn [String.length] in Hlen.
    destruct c as [[] [] [] [] [] [] [] []]; intros [= <- <-];
      cbn [String.length]; lia. }
  destruct (match PyStr.strip s with
            | String "-"%char r => (true, r)
            | String "+"%char r => (false, r)
            | _ => (false, PyStr.strip s)
            end) as [neg ds].
  specialize (Hsplit neg ds eq_refl).
  destruct (PyStr.max_str_digits <? PyStr.count_digits ds)%nat; [discriminate|].
  destruct (PyStr.parse_digits 0 false ds) as [w|] eqn:Hw; [|discriminate].
  intros [= <-]. apply parse_digits_bound in Hw; [|lia].
  assert (10 ^ Z.of_nat (String.length ds) <= 10 ^ Z.of_nat (String.length s))
    by (apply Z.pow_le_mono_r; lia).
  destruct neg; lia.
Qed.

Lemma length_take (n : nat) (s : string) :
  (String.length (PyStr.take n s) <= n)%nat.
Proof.
  revert s. induction n as [|n IH]; intros [|c s]; cbn [PyStr.take String.length]; try lia.
  specialize (IH s). lia.
Qed.

Lemma length_drop (n : nat) (s : string) :
  String.length (PyStr.drop n s) = (String.length s - n)%nat.
Proof.
  revert s. induction n as [|n IH]; intros [|c s]; cbn [PyStr.drop String.length]; try lia.
  apply IH.
Qed.

Lemma make_small_raises (y m d : Z) (e : exn) :
  Z.abs y < 10 ^ 9 -> Z.abs m < 10 ^ 2 -> Z.abs d < 10 ^ 2 ->
  Datetime.make y m d = Raise e -> exn_kind e = ValueError.
Proof.
  intros Hy Hm Hd. unfold Datetime.make.
  replace (Datetime.fits_c_int y) with true
    by (symmetry; unfold Datetime.fits_c_int; apply andb_true_iff; split; [apply Z.leb_le | apply Z.ltb_lt]; lia).
  replace (Datetime.fits_c_int m) with true
    by (symmetry; unfold Datetime.fits_c_int; apply andb_true_iff; split; [apply Z.leb_le | apply Z.ltb_lt]; lia).
  replace (Datetime.fits_c_int d) with true
    by (symmetry; unfold Datetime.fits_c_int; apply andb_true_iff; split; [apply Z.leb_le | apply Z.ltb_lt]; lia).
  cbn [negb].
  repeat match goal with
         | |- context [if ?b then Raise _ else _] => destruct b
         end;
    intros [= <-]; reflexivity.
Qed.

(** X2: when [parse_date] raises, the exception is the [ValueError] whose
    message carries the input, or an [OverflowError] that a field too long
    for a C [int] lets through; on an input of at most thirteen characters
    it is always the former. *)
Theorem parse_date_failure (date_str : string) (e : exn) :
  parse_date date_str = Raise e ->
  (e = invalid_date_format date_str \/ exn_kind e = OverflowError)
  /\ ((String.length date_str <= 13)%nat -> e = invalid_date_format date_str).
Proof.
  unfold parse_date, PyStr.slice. cbn [Nat.sub].
  change (PyStr.drop 0 date_str) with date_str.
  pose proof (length_drop 4 date_str) as Ly.
  pose proof (length_take 2 date_str) as Lm.
  pose proof (length_take 2 (PyStr.drop 2 date_str)) as Ld.
  destruct (PyStr.int (PyStr.drop 4 date_str)) as [y|e0] eqn:Hy; cbn [bind try_except_in].
  2:{ intros H. rewrite (int_raises_value_error _ _ Hy) in H. injection H as <-. auto. }
  destruct (PyStr.int (PyStr.take 2 date_str)) as [m|e0] eqn:Hm; cbn [bind try_except_in].
  2:{ intros H. rewrite (int_raises_value_error _ _ Hm) in H. injection H as <-. auto. }
  destruct (PyStr.int (PyStr.take 2 (PyStr.drop 2 date_str))) as [d|e0] eqn:Hd;
    cbn [bind try_except_in].
  2:{ intros H. rewrite (int_raises_value_error _ _ Hd) in H. injection H as <-. auto. }
  destruct (Datetime.make y m d) as [dt|e0] eqn:Hmake; cbn [bind try_except_in];
    [discriminate|].
  apply int_bound in Hy, Hm, Hd.
  destruct (is_value_or_index_error (exn_kind e0)) eqn:Hk; intros [= <-].
  - auto.
  - destruct (make_raises _ _ _ _ Hmake) as [Hv | Ho];
      [rewrite Hv in Hk; discriminate Hk|].
    split; [right; exact Ho|]. intros Hlen. exfalso.
    assert (Z.abs y < 10 ^ 9).
    { eapply Z.lt_le_trans; [exact Hy|]. apply Z.pow_le_mono_r; lia. }
    assert (Z.abs m < 10 ^ 2).
    { eapply Z.lt_le_trans; [exact Hm|]. apply Z.pow_le_mono_r; lia. }
    assert (Z.abs d < 10 ^ 2).
    { eapply Z.lt_le_trans; [exact Hd|]. apply Z.pow_le_mono_r; lia. }
    rewrite (make_small_raises y m d e0) in Ho by assumption. discriminate Ho.
Qed.

Lemma parse_date_failure_witness :
  (invalid_date_format "02292023" = invalid_date_format "02292023"
   \/ exn_kind (invalid_date_format "02292023") = OverflowError)
  /\ ((String.length "02292023" <= 13)%nat ->
      invalid_date_format "02292023" = invalid_date_format "02292023").
Proof.
  exact (parse_date_failure "02292023" (invalid_date_format "02292023") eq_refl).
Defined.

(** X3: an input of fewer than five characters leaves the year empty and
    is refused with the error that carries it; the empty input too. *)
Theorem parse_date_short_input (date_str : string) :
  (String.length date_str <= 4)%nat ->
  parse_date date_str = Raise (invalid_date_format date_str).
Proof.
  intros Hlen.
  assert (Hyear : PyStr.drop 4 date_str = EmptyString).
  { pose proof (length_drop 4 date_str) as H.
    destruct (PyStr.drop 4 date_str); [reflexivity|]. cbn [String.length] in H. lia. }
  unfold parse_date. rewrite Hyear. reflexivity.
Qed.

Lemma parse_date_short_input_witness :
  parse_date "0101" = Raise (invalid_date_format "0101").
Proof.
  apply (parse_date_short_input "0101"). cbn. lia.
Defined.

(** X4: a token of eight decimal digits is accepted exactly when it spells
    a real calendar date; when it does not, the error carries the token. *)
Theorem parse_date_eight_digit_verdict (token : string) :
  String.length token = 8%nat ->
  PyStr.all_digits token = true ->
  (returns (parse_date token)
   <-> real_calendar_date (decimal (token_year token))
         (decimal (token_month token)) (decimal (token_day token)))
  /\ (~ real_calendar_date (decimal (token_year token))
          (decimal (token_month token)) (decimal (token_day token)) ->
      parse_date token = Raise (invalid_date_format token)).
Proof.
  intros Hlen Hdig. rewrite (parse_date_eight_digits token Hlen Hdig).
  destruct (real_calendar_dateb _ _ _) eqn:Hb.
  - apply real_calendar_dateb_spec in Hb. split; [|contradiction].
    split; [intros _; exact Hb | intros _; eexists; reflexivity].
  - assert (Hn : ~ real_calendar_date (decimal (token_year token))
                     (decimal (token_month token)) (decimal (token_day token))).
    { intros H%real_calendar_dateb_spec. congruence. }
    split; [|reflexivity].
    split; [intros [iso H]; discriminate H | contradiction].
Qed.

Lemma parse_date_eight_digit_verdict_witness :
  (returns (parse_date "02292023")
   <-> real_calendar_date (decimal (token_year "02292023"))
         (decimal (token_month "02292023")) (decimal (token_day "02292023")))
  /\ (~ real_calendar_date (decimal (token_year "02292023"))
          (decimal (token_month "02292023")) (decimal (token_day "02292023")) ->
      parse_date "02292023" = Raise (invalid_date_format "02292023")).
Proof.
  exact (parse_date_eight_digit_verdict "02292023" eq_refl eq_refl).
Defined.

(** * More about the server *)

Section ServerExtras.

Variable history : string -> string -> string -> outcome (list Pd.Row).
Variable ticker_info : string -> outcome (gmap string value).
Variable mean : list float -> float.
Variable mean_int : list Z -> float.
Variable render_png :
  string -> string -> string -> string -> list Pd.Row -> outcome (list Byte.byte).
Variable float_str : float -> string.
Variable float_grouped : float -> string.
Variable dict_str : gmap string value -> string.

Local Abbreviation get_stock_data' := (get_stock_data history mean mean_int).
Local Abbreviation plot_stock_price' := (plot_stock_price history render_png).
Local Abbreviation compare_stocks' := (compare_stocks history mean mean_int).
Local Abbreviation read_stock_resource' :=
  (read_stock_resource ticker_info float_str float_grouped dict_str).
Local Abbreviation shape := (get_stock_data_shape history mean mean_int).

(** ** [get_stock_data] *)

(** X5: every call of [get_stock_data] returns a dictionary that repeats
    the ticker and the name it was given and has one of two sets of keys:
    with an [error] key, the three keys of an error, or, without one, the
    thirteen keys of the statistics. *)
Theorem get_stock_data_result_keys (ticker name start_date end_date : string) :
  exists d,
    get_stock_data' ticker name start_date end_date = Return d
    /\ d !! "ticker" = Some (VStr ticker)
    /\ d !! "name" = Some (VStr name)
    /\ ((contains d "error" = true /\ dom d = error_keys)
        \/ (contains d "error" = false /\ dom d = stats_keys)).
Proof.
  destruct (shape ticker name start_date end_date)
    as [[msg H] | (sf & ef & n & o & c & h & l & a & ch & p & v & _ & _ & H)];
    rewrite H; eexists; (split; [reflexivity|]).
  - split; [reflexivity|]. split; [reflexivity|]. left. split; reflexivity.
  - split; [reflexivity|]. split; [reflexivity|]. right. split; reflexivity.
Qed.

(** X6: when [parse_date] refuses the start date, or accepts it and
    refuses the end date, [get_stock_data] returns the error dictionary
    whose message is ["Failed to fetch data: "] followed by the text of
    that refusal, whatever Yahoo Finance would have answered. *)
Theorem get_stock_data_refused_date (ticker name start_date end_date : string)
    (e : exn) :
  parse_date start_date = Raise e
  \/ (returns (parse_date start_date) /\ parse_date end_date = Raise e) ->
  get_stock_data' ticker name start_date end_date
  = Return {[ "error" := VStr ("Failed to fetch data: " +:+ exn_str e);
              "ticker" := VStr ticker;
              "name" := VStr name ]}.
Proof.
  intros [Hs | [[sf Hs] He]]; unfold get_stock_data; rewrite Hs; [reflexivity|].
  cbn [bind]. rewrite He. reflexivity.
Qed.

Lemma nonempty_first_last {A : Type} (l : list A) :
  l <> [] -> exists first last_, head l = Some first /\ last l = Some last_.
Proof.
  destruct l as [|x l]; [congruence|]. intros _. exists x.
  destruct (last (x :: l)) as [y|] eqn:Hy; [eauto|].
  apply last_None in Hy. discriminate Hy.
Qed.

(** X7: the dictionary [get_stock_data] returns has no [error] key exactly
    when both dates were accepted, the fetch returned at least one row and
    the mean of the volumes is a number [int] converts; in every other case
    it is an error.  When the fetch raises, the message is
    ["Failed to fetch data: "] followed by the text of the exception. *)
Theorem get_stock_data_verdict (ticker name start_date end_date : string) :
  exists d,
    get_stock_data' ticker name start_date end_date = Return d
    /\ (contains d "error" = false
        <-> exists start_formatted end_formatted data volume,
              parse_date start_date = Return start_formatted
              /\ parse_date end_date = Return end_formatted
              /\ history ticker start_formatted end_formatted = Return data
              /\ data <> []
              /\ Np.to_int (mean_int (map Pd.Volume data)) = Return volume)
    /\ (forall start_formatted end_formatted e,
          parse_date start_date = Return start_formatted ->
          parse_date end_date = Return end_formatted ->
          history ticker start_formatted end_formatted = Raise e ->
          d = {[ "error" := VStr ("Failed to fetch data: " +:+ exn_str e);
                 "ticker" := VStr ticker;
                 "name" := VStr name ]}).
Proof.
  unfold get_stock_data.
  destruct (parse_date start_date) as [sf|e] eqn:Hs.
  2:{ eexists. split; [reflexivity|]. split; [split; [discriminate|]|].
      - intros (? & ? & ? & ? & H & _). discriminate H.
      - intros ? ? ? H. discriminate H. }
  destruct (parse_date end_date) as [ef|e] eqn:He.
  2:{ eexists. split; [reflexivity|]. split; [split; [discriminate|]|].
      - intros (? & ? & ? & ? & _ & H & _). discriminate H.
      - intros ? ? ? _ H. discriminate H. }
  cbn [bind]. destruct (history ticker sf ef) as [data|e] eqn:Hh.
  2:{ eexists. split; [reflexivity|]. split; [split; [discriminate|]|].
      - intros (? & ? & ? & ? & [= <-] & [= <-] & H & _).
        rewrite Hh in H. discriminate H.
      - intros ? ? e' [= <-] [= <-] H. rewrite Hh in H.
        injection H as <-. reflexivity. }
  cbn [bind]. destruct data as [|r data].
  { eexists. split; [reflexivity|]. split; [split; [discriminate|]|].
    - intros (? & ? & ? & ? & [= <-] & [= <-] & H & Hne & _).
      rewrite Hh in H. injection H as <-. congruence.
    - intros ? ? ? [= <-] [= <-] H. rewrite Hh in H. discriminate H. }
  cbn [Pd.empty].
  destruct (Pd.iloc_first (map Pd.Open (r :: data))) as [o|e] eqn:Ho;
    [|discriminate Ho].
  destruct (Pd.iloc_last (map Pd.Close (r :: data))) as [c|e] eqn:Hc.
  2:{ destruct (nonempty_first_last (map Pd.Close (r :: data)))
        as (? & l & _ & Hl); [discriminate|].
      unfold Pd.iloc_last in Hc. rewrite Hl in Hc. discriminate Hc. }
  cbn [bind].
  destruct (Np.to_int (mean_int (map Pd.Volume (r :: data)))) as [v|e] eqn:Hv.
  - eexists. split; [reflexivity|]. split; [split|].
    + intros _. exists sf, ef, (r :: data), v.
      repeat split; try assumption. discriminate.
    + intros _. reflexivity.
    + intros ? ? ? [= <-] [= <-] H. rewrite Hh in H. discriminate H.
  - eexists. split; [reflexivity|]. split; [split; [discriminate|]|].
    + intros (? & ? & ? & ? & [= <-] & [= <-] & H & _ & H').
      rewrite Hh in H. injection H as <-. rewrite Hv in H'. discriminate H'.
    + intros ? ? ? [= <-] [= <-] H. rewrite Hh in H. discriminate H.
Qed.

(** X8: on a fetched series with at least one row and no NaN among its
    highs and lows, the highest price is the rounded high of a row whose
    high no row exceeds, and the lowest price the rounded low of a row
    whose low exceeds none. *)
Theorem get_stock_data_extremes (ticker name start_date end_date : string)
    (start_formatted end_formatted : string) (data : list Pd.Row) (volume : Z) :
  parse_date start_date = Return start_formatted ->
  parse_date end_date = Return end_formatted ->
  history ticker start_formatted end_formatted = Return data ->
  data <> [] ->
  Np.to_int (mean_int (map Pd.Volume data)) = Return volume ->
  Forall (fun r => is_nan (Pd.High r) = false) data ->
  Forall (fun r => is_nan (Pd.Low r) = false) data ->
  exists stats hi lo,
    get_stock_data' ticker name start_date end_date = Return stats
    /\ In hi data /\ In lo data
    /\ stats !! "highest_price" = Some (VFloat (Np.round (Pd.High hi) 2))
    /\ (forall r, In r data -> (Pd.High r <=? Pd.High hi)%float = true)
    /\ stats !! "lowest_price" = Some (VFloat (Np.round (Pd.Low lo) 2))
    /\ (forall r, In r data -> (Pd.Low lo <=? Pd.Low r)%float = true).
Proof.
  intros Hs He Hh Hne Hvol Hhigh Hlow.
  destruct (nonempty_first_last data Hne) as (first & last_ & Hfirst & Hlast).
  rewrite (get_stock_data_nonempty history mean mean_int _ name _ _ _ _ _ _ _
             Hs He Hh Hfirst Hlast), Hvol.
  assert (Hmap : forall f : Pd.Row -> float, map f data <> [])
    by (intros f; destruct data; [congruence | discriminate]).
  destruct (Pd_max_is_maximum (map Pd.High data) (Hmap _)) as [Hin Hmax].
  { apply List.Forall_forall. intros x (r & <- & Hr)%in_map_iff.
    exact (proj1 (List.Forall_forall _ _) Hhigh r Hr). }
  destruct (Pd_min_is_minimum (map Pd.Low data) (Hmap _)) as [Hin' Hmin].
  { apply List.Forall_forall. intros x (r & <- & Hr)%in_map_iff.
    exact (proj1 (List.Forall_forall _ _) Hlow r Hr). }
  apply in_map_iff in Hin as (hi & Hhi & Hin).
  apply in_map_iff in Hin' as (lo & Hlo & Hin').
  eexists. exists hi, lo. split; [reflexivity|].
  split; [exact Hin|]. split; [exact Hin'|].
  split; [rewrite Hhi; reflexivity|].
  split.
  { intros r Hr. rewrite Hhi.
    exact (proj1 (List.Forall_forall _ _) Hmax (Pd.High r) (in_map Pd.High data r Hr)). }
  split; [rewrite Hlo; reflexivity|].
  intros r Hr. rewrite Hlo.
  exact (proj1 (List.Forall_forall _ _) Hmin (Pd.Low r) (in_map Pd.Low data r Hr)).
Qed.


(** ** [plot_stock_price] *)

(** X10: whatever the request and the collaborators, the text
    [plot_stock_price] returns starts with [data:image/png;base64,] exactly
    when both dates were accepted, the fetch gave at least one row and the
    chart was drawn; a refused date, a failed fetch, an empty series and a
    failed drawing never give text that starts so. *)
Theorem plot_stock_price_prefix_iff_drawn (ticker name start_date end_date : string) :
  exists text,
    plot_stock_price' ticker name start_date end_date = Return text
    /\ (PyStr.startswith text png_prefix = true
        <-> exists start_formatted end_formatted data png,
              parse_date start_date = Return start_formatted
              /\ parse_date end_date = Return end_formatted
              /\ history ticker start_formatted end_formatted = Return data
              /\ data <> []
              /\ render_png ticker name start_formatted end_formatted data
                 = Return png).
Proof.
  unfold plot_stock_price.
  destruct (parse_date start_date) as [sf|e] eqn:Hs.
  2:{ eexists. split; [reflexivity|]. split; [discriminate|].
      intros (? & ? & ? & ? & H & _). discriminate H. }
  destruct (parse_date end_date) as [ef|e] eqn:He.
  2:{ eexists. split; [reflexivity|]. split; [discriminate|].
      intros (? & ? & ? & ? & _ & H & _). discriminate H. }
  cbn [bind]. destruct (history ticker sf ef) as [data|e] eqn:Hh.
  2:{ eexists. split; [reflexivity|]. split; [discriminate|].
      intros (? & ? & ? & ? & [= <-] & [= <-] & H & _). rewrite Hh in H. discriminate H. }
  cbn [bind]. destruct data as [|r data].
  { eexists. split; [reflexivity|]. split; [discriminate|].
    intros (? & ? & ? & ? & [= <-] & [= <-] & H & Hne & _).
    rewrite Hh in H. injection H as <-. congruence. }
  cbn [Pd.empty].
  destruct (render_png ticker name sf ef (r :: data)) as [png|e] eqn:Hr.
  - eexists. split; [reflexivity|]. split; [|intros _; apply startswith_append].
    intros _. exists sf, ef, (r :: data), png. repeat split; try assumption. discriminate.
  - eexists. split; [reflexivity|]. split; [discriminate|].
    intros (? & ? & ? & ? & [= <-] & [= <-] & H & _ & H').
    rewrite Hh in H. injection H as <-. rewrite Hr in H'. discriminate H'.
Qed.

Lemma length_append (s t : string) :
  String.length (s +:+ t) = (String.length s + String.length t)%nat.
Proof.
  induction s as [|c s IH]; [reflexivity|].
  rewrite append_cons. cbn [String.length]. rewrite IH. reflexivity.
Qed.

Lemma b64encode_length (bs : list Byte.byte) :
  String.length (Base64.b64encode bs) = (4 * ((length bs + 2) / 3))%nat.
Proof.
  induction bs as [| x | x y | x y z rest IH] using list_ind3.
  - reflexivity.
  - cbn [Base64.b64encode].
    destruct (Byte.to_bits x) as (x0 & x1 & x2 & x3 & x4 & x5 & x6 & x7).
    reflexivity.
  - cbn [Base64.b64encode].
    destruct (Byte.to_bits x) as (x0 & x1 & x2 & x3 & x4 & x5 & x6 & x7).
    destruct (Byte.to_bits y) as (y0 & y1 & y2 & y3 & y4 & y5 & y6 & y7).
    reflexivity.
  - cbn [Base64.b64encode].
    destruct (Byte.to_bits x) as (x0 & x1 & x2 & x3 & x4 & x5 & x6 & x7).
    destruct (Byte.to_bits y) as (y0 & y1 & y2 & y3 & y4 & y5 & y6 & y7).
    destruct (Byte.to_bits z) as (z0 & z1 & z2 & z3 & z4 & z5 & z6 & z7).
    cbn [String.length length]. rewrite IH.
    replace (S (S (S (length rest))) + 2)%nat with ((length rest + 2) + 1 * 3)%nat by lia.
    rewrite Nat.div_add by lia. lia.
Qed.

(** X11: when the chart is drawn, the text returned is 22 characters of
    prefix and four characters for every three bytes of the PNG file, the
    last group counted whole. *)
Theorem plot_stock_price_length (ticker name start_date end_date : string)
    (start_formatted end_formatted : string) (data : list Pd.Row)
    (png : list Byte.byte) :
  parse_date start_date = Return start_formatted ->
  parse_date end_date = Return end_formatted ->
  history ticker start_formatted end_formatted = Return data ->
  data <> [] ->
  render_png ticker name start_formatted end_formatted data = Return png ->
  exists text,
    plot_stock_price' ticker name start_date end_date = Return text
    /\ String.length text = (22 + 4 * ((length png + 2) / 3))%nat.
Proof.
  intros Hs He Hh Hne Hr. unfold plot_stock_price. rewrite Hs, He. cbn [bind].
  rewrite Hh. cbn [bind]. destruct data as [|r data]; [congruence|].
  cbn [Pd.empty]. rewrite Hr. cbn [bind].
  eexists. split; [reflexivity|].
  rewrite length_append, b64encode_length. reflexivity.
Qed.

(** ** [compare_stocks] *)

Lemma compare_stocks_success (ticker1 ticker2 start_date end_date : string)
    (sf ef sf1 ef1 sf2 ef2 : string) (n1 n2 : Z)
    (o1 c1 h1 l1 a1 ch1 p1 o2 c2 h2 l2 a2 ch2 p2 : float) (v1 v2 : Z) :
  parse_date start_date = Return sf ->
  parse_date end_date = Return ef ->
  get_stock_data' ticker1 ticker1 start_date end_date
    = Return (stats_result ticker1 ticker1 sf1 ef1 n1 o1 c1 h1 l1 a1 ch1 p1 v1) ->
  get_stock_data' ticker2 ticker2 start_date end_date
    = Return (stats_result ticker2 ticker2 sf2 ef2 n2 o2 c2 h2 l2 a2 ch2 p2 v2) ->
  compare_stocks' ticker1 ticker2 start_date end_date
  = Return (comparison_result ticker1 ticker2 sf ef p1 ch1 c1 p2 ch2 c2).
Proof.
  intros Hs He G1 G2.
  pose proof (getitem_stats_result ticker1 ticker1 sf1 ef1 n1 o1 c1 h1 l1 a1 ch1 p1 v1)
    as (I1 & I2 & I3).
  pose proof (getitem_stats_result ticker2 ticker2 sf2 ef2 n2 o2 c2 h2 l2 a2 ch2 p2 v2)
    as (J1 & J2 & J3).
  cbn zeta in *.
  unfold compare_stocks. rewrite G1, G2. cbn [bind try_except].
  rewrite !contains_stats_result. cbn [orb].
  rewrite Hs, He. cbn [bind]. rewrite I1, I2, I3, J1, J2, J3.
  cbn [bind value_gt value_sub value_round as_float].
  unfold comparison_result.
  destruct (p2 <? p1)%float; reflexivity.
Qed.

Lemma compare_stocks_failure (ticker1 ticker2 start_date end_date : string)
    (d1 d2 : gmap string value) :
  get_stock_data' ticker1 ticker1 start_date end_date = Return d1 ->
  get_stock_data' ticker2 ticker2 start_date end_date = Return d2 ->
  contains d1 "error" || contains d2 "error" = true ->
  compare_stocks' ticker1 ticker2 start_date end_date
  = Return {[ "error" := VStr "Failed to get data for one or both stocks";
              "stock1_error" := get d1 "error" (VStr "No error");
              "stock2_error" := get d2 "error" (VStr "No error") ]}.
Proof.
  intros H1 H2 Herr. unfold compare_stocks. rewrite H1, H2. cbn [bind try_except].
  rewrite Herr. reflexivity.
Qed.

(** The two forms of a [compare_stocks] result. *)
Lemma compare_stocks_forms (ticker1 ticker2 start_date end_date : string) :
  (exists v1 v2,
     compare_stocks' ticker1 ticker2 start_date end_date
     = Return {[ "error" := VStr "Failed to get data for one or both stocks";
                 "stock1_error" := v1;
                 "stock2_error" := v2 ]})
  \/ (exists sf ef p1 ch1 c1 p2 ch2 c2,
        compare_stocks' ticker1 ticker2 start_date end_date
        = Return (comparison_result ticker1 ticker2 sf ef p1 ch1 c1 p2 ch2 c2)).
Proof.
  destruct (shape ticker1 ticker1 start_date end_date)
    as [[msg1 G1] | (sf & ef & n1 & o1 & c1 & h1 & l1 & a1 & ch1 & p1 & v1 & Hs & He & G1)].
  { left.
    destruct (get_stock_data' ticker2 ticker2 start_date end_date) as [d2|e] eqn:G2.
    - do 2 eexists. apply (compare_stocks_failure _ _ _ _ _ _ G1 G2). reflexivity.
    - destruct (shape ticker2 ticker2 start_date end_date)
        as [[? G] | (? & ? & ? & ? & ? & ? & ? & ? & ? & ? & ? & _ & _ & G)];
        rewrite G in G2; discriminate G2. }
  destruct (shape ticker2 ticker2 start_date end_date)
    as [[msg2 G2] | (sf2 & ef2 & n2 & o2 & c2 & h2 & l2 & a2 & ch2 & p2 & v2 & _ & _ & G2)].
  { left. do 2 eexists. apply (compare_stocks_failure _ _ _ _ _ _ G1 G2).
    rewrite contains_error_result. apply orb_true_r. }
  right. exists sf, ef, p1, ch1, c1, p2, ch2, c2.
  apply (compare_stocks_success _ _ _ _ _ _ _ _ _ _ _ _ _ _ _ _ _ _ _ _ _ _ _ _ _ _ _ _
           Hs He G1 G2).
Qed.

Lemma stats_result_fields (t nm sf ef : string) (n : Z)
    (o c h l a ch p : float) (v : Z) :
  let d := stats_result t nm sf ef n o c h l a ch p v in
  d !! "percentage_change" = Some (VFloat p)
  /\ d !! "price_change" = Some (VFloat ch)
  /\ d !! "closing_price" = Some (VFloat c).
Proof. repeat split; reflexivity. Qed.


(** X13: every call of [compare_stocks] returns either the combined error
    with the keys [error], [stock1_error] and [stock2_error], or the
    comparison with its five keys; the [except] clause of the function is
    never taken, no result is the ["Comparison failed: ..."] dictionary. *)
Theorem compare_stocks_result_keys (ticker1 ticker2 start_date end_date : string) :
  exists result,
    compare_stocks' ticker1 ticker2 start_date end_date = Return result
    /\ (dom result = comparison_error_keys \/ dom result = comparison_keys)
    /\ (forall msg : string,
          result <> {[ "error" := VStr ("Comparison failed: " +:+ msg) ]}).
Proof.
  destruct (compare_stocks_forms ticker1 ticker2 start_date end_date)
    as [(v1 & v2 & H) | (sf & ef & p1 & ch1 & c1 & p2 & ch2 & c2 & H)];
    rewrite H; eexists; (split; [reflexivity|]).
  - split; [left; reflexivity|]. intros msg Heq.
    apply (f_equal (fun m : gmap string value => m !! "stock1_error")) in Heq.
    discriminate Heq.
  - split; [right; reflexivity|]. intros msg Heq.
    apply (f_equal (fun m : gmap string value => m !! "stock1")) in Heq.
    discriminate Heq.
Qed.

Lemma float_ltb_irrefl (p : float) : (p <? p)%float = false.
Proof.
  destruct (p <? p)%float eqn:H; [|reflexivity].
  pose proof (float_ltb_asym p p H). congruence.
Qed.

Lemma float_eqb_sym (p q : float) :
  (p =? q)%float = true -> (q =? p)%float = true.
Proof.
  rewrite !FloatAxioms.eqb_spec. unfold SFeqb.
  rewrite (SF_compare_antisym (Prim2SF p) (Prim2SF q)) by apply Prim2SF_valid.
  destruct (SFcompare (Prim2SF p) (Prim2SF q)) as [[]|]; cbn; congruence.
Qed.

Lemma SF_sub_self (x : spec_float) :
  SF.nonfinite x = false -> SF64sub x x = S754_zero false.
Proof.
  destruct x as [[] | | | s m e]; try discriminate; intros _; try reflexivity.
  unfold SF64sub, SFsub. rewrite Z.sub_diag. reflexivity.
Qed.

Lemma float_sub_self (p : float) :
  Np.is_finite p = true -> (p - p)%float = 0%float.
Proof.
  intros Hp. apply (float_of_SF _ (S754_zero false)). rewrite sub_spec.
  apply SF_sub_self.
  destruct (SF.nonfinite (Prim2SF p)) eqn:Hn; [|reflexivity].
  rewrite (is_finite_nonfinite p Hn) in Hp. discriminate Hp.
Qed.

(** X14: a ticker compared with itself, when its leg succeeds with a
    finite percentage change, is named the better performer, with a
    performance difference of zero. *)
Theorem compare_stocks_same_ticker (ticker start_date end_date : string)
    (stock_data : gmap string value) (pct : float) :
  get_stock_data' ticker ticker start_date end_date = Return stock_data ->
  contains stock_data "error" = false ->
  stock_data !! "percentage_change" = Some (VFloat pct) ->
  Np.is_finite pct = true ->
  exists result,
    compare_stocks' ticker ticker start_date end_date = Return result
    /\ result !! "better_performer" = Some (VStr ticker)
    /\ result !! "performance_difference" = Some (VFloat 0).
Proof.
  intros H E Hpct Hfin.
  destruct (shape ticker ticker start_date end_date)
    as [[msg G] | (sf & ef & n & o & c & h & l & a & ch & p & v & Hs & He & G)];
    pose proof G as G'; rewrite H in G'; injection G' as ->;
    [rewrite contains_error_result in E; discriminate E|].
  pose proof (stats_result_fields ticker ticker sf ef n o c h l a ch p v) as (F & _).
  cbn zeta in F. rewrite F in Hpct. injection Hpct as ->.
  rewrite (compare_stocks_success _ _ _ _ _ _ _ _ _ _ _ _ _ _ _ _ _ _ _ _ _ _ _ _ _ _ _ _
             Hs He G G).
  eexists. split; [reflexivity|]. unfold comparison_result.
  rewrite float_ltb_irrefl, (float_sub_self pct Hfin).
  split; [reflexivity|]. vm_compute. reflexivity.
Qed.

(** X15: with both legs succeeding, the verdict does not depend on the
    order of the two tickers when one percentage change is strictly
    greater: both orders name the same better performer and the same
    performance difference.  When the two percentage changes are equal each
    order names its second ticker. *)
Theorem compare_stocks_swapped (ticker1 ticker2 start_date end_date : string)
    (stock1_data stock2_data : gmap string value) (pct1 pct2 : float) :
  get_stock_data' ticker1 ticker1 start_date end_date = Return stock1_data ->
  get_stock_data' ticker2 ticker2 start_date end_date = Return stock2_data ->
  contains stock1_data "error" = false ->
  contains stock2_data "error" = false ->
  stock1_data !! "percentage_change" = Some (VFloat pct1) ->
  stock2_data !! "percentage_change" = Some (VFloat pct2) ->
  exists forth back,
    compare_stocks' ticker1 ticker2 start_date end_date = Return forth
    /\ compare_stocks' ticker2 ticker1 start_date end_date = Return back
    /\ ((pct2 <? pct1)%float = true \/ (pct1 <? pct2)%float = true ->
        forth !! "better_performer" = back !! "better_performer"
        /\ forth !! "performance_difference" = back !! "performance_difference")
    /\ ((pct1 =? pct2)%float = true ->
        forth !! "better_performer" = Some (VStr ticker2)
        /\ back !! "better_performer" = Some (VStr ticker1)).
Proof.
  intros H1 H2 E1 E2 P1 P2.
  destruct (shape ticker1 ticker1 start_date end_date)
    as [[msg G1] | (sf & ef & n1 & o1 & c1 & h1 & l1 & a1 & ch1 & p1 & v1 & Hs & He & G1)];
    pose proof G1 as G1'; rewrite H1 in G1'; injection G1' as ->;
    [rewrite contains_error_result in E1; discriminate E1|].
  destruct (shape ticker2 ticker2 start_date end_date)
    as [[msg G2] | (sf' & ef' & n2 & o2 & c2 & h2 & l2 & a2 & ch2 & p2 & v2 & _ & _ & G2)];
    pose proof G2 as G2'; rewrite H2 in G2'; injection G2' as ->;
    [rewrite contains_error_result in E2; discriminate E2|].
  pose proof (stats_result_fields ticker1 ticker1 sf ef n1 o1 c1 h1 l1 a1 ch1 p1 v1) as (F1 & _).
  pose proof (stats_result_fields ticker2 ticker2 sf' ef' n2 o2 c2 h2 l2 a2 ch2 p2 v2) as (F2 & _).
  cbn zeta in F1, F2. rewrite F1 in P1. rewrite F2 in P2.
  injection P1 as ->. injection P2 as ->.
  rewrite (compare_stocks_success _ _ _ _ _ _ _ _ _ _ _ _ _ _ _ _ _ _ _ _ _ _ _ _ _ _ _ _
             Hs He G1 G2).
  rewrite (compare_stocks_success _ _ _ _ _ _ _ _ _ _ _ _ _ _ _ _ _ _ _ _ _ _ _ _ _ _ _ _
             Hs He G2 G1).
  do 2 eexists. split; [reflexivity|]. split; [reflexivity|].
  unfold comparison_result. split.
  - intros [Hgt | Hlt].
    + rewrite Hgt, (float_ltb_asym _ _ Hgt). split; reflexivity.
    + rewrite Hlt, (float_ltb_asym _ _ Hlt). split; reflexivity.
  - intros Heq.
    rewrite (float_eqb_not_ltb _ _ Heq), (float_eqb_not_ltb _ _ (float_eqb_sym _ _ Heq)).
    split; reflexivity.
Qed.

Lemma get_stock_data_bad_date (ticker name start_date end_date : string)
    (e : exn) :
  parse_date start_date = Raise e
  \/ (returns (parse_date start_date) /\ parse_date end_date = Raise e) ->
  get_stock_data' ticker name start_date end_date
  = Return (error_result ("Failed to fetch data: " +:+ exn_str e) ticker name).
Proof.
  intros [Hs | [[sf Hs] He]]; unfold get_stock_data; rewrite Hs; [reflexivity|].
  cbn [bind]. rewrite He. reflexivity.
Qed.

(** X16: when [parse_date] refuses one of the dates, [compare_stocks]
    returns the combined error in which both legs carry the same message,
    ["Failed to fetch data: "] followed by the text of the refusal. *)
Theorem compare_stocks_refused_date (ticker1 ticker2 start_date end_date : string)
    (e : exn) :
  parse_date start_date = Raise e
  \/ (returns (parse_date start_date) /\ parse_date end_date = Raise e) ->
  compare_stocks' ticker1 ticker2 start_date end_date
  = Return {[ "error" := VStr "Failed to get data for one or both stocks";
              "stock1_error" := VStr ("Failed to fetch data: " +:+ exn_str e);
              "stock2_error" := VStr ("Failed to fetch data: " +:+ exn_str e) ]}.
Proof.
  intros Hbad.
  rewrite (compare_stocks_failure ticker1 ticker2 start_date end_date _ _
             (get_stock_data_bad_date ticker1 ticker1 _ _ e Hbad)
             (get_stock_data_bad_date ticker2 ticker2 _ _ e Hbad) eq_refl).
  reflexivity.
Qed.

(** ** [read_stock_resource] *)

Local Abbreviation value_str' := (value_str float_str dict_str).


(** X18: a market capitalisation that is present but is [None], or is a
    text, cannot take the thousands separator: the operation returns the
    error text with the message of the formatting failure, not the block. *)
Theorem read_stock_resource_unformattable_cap (ticker : string)
    (info : gmap string value) (cap : value) :
  ticker_info ticker = Return info ->
  info !! "marketCap" = Some cap ->
  (cap = VNone ->
   read_stock_resource' ticker
   = Return "Error fetching stock resource: unsupported format string passed to NoneType.__format__")
  /\ ((exists s, cap = VStr s) ->
      read_stock_resource' ticker
      = Return "Error fetching stock resource: Cannot specify ',' with 's'.").
Proof.
  intros Hinfo Hcap.
  split; [intros -> | intros [s ->]];
    unfold read_stock_resource; rewrite Hinfo; cbn [bind];
    unfold get; rewrite Hcap; reflexivity.
Qed.

(** X19: [read_stock_resource] always returns a text.  It is the block,
    which does not start with the words of the error, exactly when the
    snapshot was read and holds a number as market capitalisation; when the
    read raised, or the capitalisation is absent or no number, it is
    ["Error fetching stock resource: "] followed by the text of the
    exception. *)
Theorem read_stock_resource_verdict (ticker : string) :
  exists text,
    read_stock_resource' ticker = Return text
    /\ (PyStr.startswith text "Error fetching stock resource: " = false
        <-> exists info,
              ticker_info ticker = Return info
              /\ ((exists z, info !! "marketCap" = Some (VInt z))
                  \/ (exists f, info !! "marketCap" = Some (VFloat f))))
    /\ (forall e, ticker_info ticker = Raise e ->
          text = "Error fetching stock resource: " +:+ exn_str e).
Proof.
  unfold read_stock_resource.
  destruct (ticker_info ticker) as [info|e] eqn:Hi; cbn [bind try_except].
  2:{ eexists. split; [reflexivity|]. split; [split|].
      - rewrite startswith_append. discriminate.
      - intros (? & H & _). discriminate H.
      - intros ? [= <-]. reflexivity. }
  unfold get.
  destruct (info !! "marketCap") as [[| s | z | f | d]|] eqn:Hc;
    cbn [default NA value_format_grouped bind try_except];
    eexists; (split; [reflexivity|]); (split; [split|discriminate]).
  all: try (rewrite startswith_append; discriminate).
  all: try (intros (? & [= <-] & [[? H] | [? H]]);
            rewrite Hc in H; discriminate H).
  - intros _. exists info. split; [reflexivity|]. left. eauto.
  - intros _. reflexivity.
  - intros _. exists info. split; [reflexivity|]. right. eauto.
  - intros _. reflexivity.
Qed.

End ServerExtras.

(** * The callers and the server *)

Section ClientFacts.

Variable history : string -> string -> string -> outcome (list Pd.Row).
Variable mean : list float -> float.
Variable mean_int : list Z -> float.
Variable render_png :
  string -> string -> string -> string -> list Pd.Row -> outcome (list Byte.byte).
Variable float_str : float -> string.
Variable dict_str : gmap string value -> string.

Local Abbreviation get_stock_data' := (get_stock_data history mean mean_int).
Local Abbreviation plot_stock_price' := (plot_stock_price history render_png).
Local Abbreviation compare_stocks' := (compare_stocks history mean mean_int).
Local Abbreviation demo_show_stock_data' :=
  (demo_show_stock_data float_str dict_str).
Local Abbreviation demo_show_comparison' :=
  (demo_show_comparison float_str dict_str).
Local Abbreviation interactive_show' := (interactive_show float_str dict_str).

(** X20: the demo prints a [get_stock_data] result without looking for an
    error first.  On an error result it prints the line with the name and
    the ticker and is then stopped by [KeyError: 'opening_price']; on a
    statistics result it prints its six lines. *)
Theorem demo_show_stock_data_on_result (ticker name start_date end_date : string) :
  exists d,
    get_stock_data' ticker name start_date end_date = Return d
    /\ ((contains d "error" = true
         /\ demo_show_stock_data' d
            = (["   📈 " +:+ name +:+ " (" +:+ ticker +:+ ")"],
               Some (Exn KeyError "'opening_price'")))
        \/ (contains d "error" = false
            /\ exists lines,
                 demo_show_stock_data' d = (lines, None)
                 /\ length lines = 6%nat)).
Proof.
  destruct (get_stock_data_shape history mean mean_int ticker name start_date end_date)
    as [[msg H] | (sf & ef & n & o & c & h & l & a & ch & p & v & _ & _ & H)];
    rewrite H; eexists; (split; [reflexivity|]).
  - left. split; reflexivity.
  - right. split; [reflexivity|]. eexists. split; reflexivity.
Qed.

(** X21: the interactive mode looks for the [error] key first: on every
    [get_stock_data] result it prints without being stopped by a missing
    key, one line for an error and six for the statistics. *)
Theorem interactive_show_on_result (ticker name start_date end_date : string) :
  exists d lines,
    get_stock_data' ticker name start_date end_date = Return d
    /\ interactive_show' ticker d = (lines, None)
    /\ (contains d "error" = true -> length lines = 1%nat)
    /\ (contains d "error" = false -> length lines = 6%nat).
Proof.
  destruct (get_stock_data_shape history mean mean_int ticker name start_date end_date)
    as [[msg H] | (sf & ef & n & o & c & h & l & a & ch & p & v & _ & _ & H)];
    rewrite H; do 2 eexists; (split; [reflexivity|]).
  - split; [reflexivity|]. split; [reflexivity | discriminate].
  - split; [reflexivity|]. split; [discriminate | reflexivity].
Qed.

(** X22: on every [compare_stocks] result the demo prints without being
    stopped by a missing key: the one line of the error, or the four lines
    of the comparison, whose better performer, difference, tickers and
    percentage changes are all there. *)
Theorem demo_show_comparison_on_result (ticker1 ticker2 start_date end_date : string) :
  exists comp lines,
    compare_stocks' ticker1 ticker2 start_date end_date = Return comp
    /\ demo_show_comparison' comp = (lines, None)
    /\ (contains comp "error" = true -> length lines = 1%nat)
    /\ (contains comp "error" = false -> length lines = 4%nat).
Proof.
  destruct (get_stock_data_shape history mean mean_int ticker1 ticker1 start_date end_date)
    as [[msg1 G1] | (sf & ef & n1 & o1 & c1 & h1 & l1 & a1 & ch1 & p1 & v1 & Hs & He & G1)].
  { destruct (get_stock_data_shape history mean mean_int ticker2 ticker2 start_date end_date)
      as [[msg2 G2] | (sf' & ef' & n2 & o2 & c2 & h2 & l2 & a2 & ch2 & p2 & v2 & _ & _ & G2)];
      rewrite (compare_stocks_failure history mean mean_int _ _ _ _ _ _ G1 G2 eq_refl);
      do 2 eexists; (split; [reflexivity|]);
      (split; [reflexivity|]); (split; [reflexivity | discriminate]). }
  destruct (get_stock_data_shape history mean mean_int ticker2 ticker2 start_date end_date)
    as [[msg2 G2] | (sf' & ef' & n2 & o2 & c2 & h2 & l2 & a2 & ch2 & p2 & v2 & _ & _ & G2)].
  { rewrite (compare_stocks_failure history mean mean_int _ _ _ _ _ _ G1 G2 eq_refl).
    do 2 eexists. split; [reflexivity|].
    split; [reflexivity|]. split; [reflexivity | discriminate]. }
  rewrite (compare_stocks_success history mean mean_int
             _ _ _ _ _ _ _ _ _ _ _ _ _ _ _ _ _ _ _ _ _ _ _ _ _ _ _ _ Hs He G1 G2).
  do 2 eexists. split; [reflexivity|].
  split; [reflexivity|]. split; [discriminate | reflexivity].
Qed.

(** X23: the demo announces a plot when the text starts with
    [data:image].  Whatever the request and the collaborators, that is so
    exactly when the server accepted both dates, fetched at least one row
    and drew the chart. *)
Theorem demo_plot_accepted_iff_drawn (ticker name start_date end_date : string) :
  exists text,
    plot_stock_price' ticker name start_date end_date = Return text
    /\ (demo_plot_accepted text = true
        <-> exists start_formatted end_formatted data png,
              parse_date start_date = Return start_formatted
              /\ parse_date end_date = Return end_formatted
              /\ history ticker start_formatted end_formatted = Return data
              /\ data <> []
              /\ render_png ticker name start_formatted end_formatted data
                 = Return png).
Proof.
  unfold plot_stock_price.
  destruct (parse_date start_date) as [sf|e] eqn:Hs.
  2:{ eexists. split; [reflexivity|]. split; [discriminate|].
      intros (? & ? & ? & ? & H & _). discriminate H. }
  destruct (parse_date end_date) as [ef|e] eqn:He.
  2:{ eexists. split; [reflexivity|]. split; [discriminate|].
      intros (? & ? & ? & ? & _ & H & _). discriminate H. }
  cbn [bind]. destruct (history ticker sf ef) as [data|e] eqn:Hh.
  2:{ eexists. split; [reflexivity|]. split; [discriminate|].
      intros (? & ? & ? & ? & [= <-] & [= <-] & H & _). rewrite Hh in H. discriminate H. }
  cbn [bind]. destruct data as [|r data].
  { eexists. split; [reflexivity|]. split; [discriminate|].
    intros (? & ? & ? & ? & [= <-] & [= <-] & H & Hne & _).
    rewrite Hh in H. injection H as <-. congruence. }
  cbn [Pd.empty].
  destruct (render_png ticker name sf ef (r :: data)) as [png|e] eqn:Hr.
  - eexists. split; [reflexivity|]. split; [|intros _; reflexivity].
    intros _. exists sf, ef, (r :: data), png. repeat split; try assumption. discriminate.
  - eexists. split; [reflexivity|]. split; [discriminate|].
    intros (? & ? & ? & ? & [= <-] & [= <-] & H & _ & H').
    rewrite Hh in H. injection H as <-. rewrite Hr in H'. discriminate H'.
Qed.

End ClientFacts.

(** * The self-test of the date codec *)

(** X24: the copy of [parse_date] in the debugger returns exactly what the
    server's returns, and fails exactly when the server's fails; what it
    raises is always a [ValueError] whose message carries the input and the
    text of the cause, also where the server's lets an [OverflowError]
    through. *)
Theorem debug_parse_date_agrees (date_str : string) :
  (forall iso, debug_parse_date date_str = Return iso
               <-> parse_date date_str = Return iso)
  /\ ((exists e, debug_parse_date date_str = Raise e)
      <-> (exists e, parse_date date_str = Raise e))
  /\ (forall e, debug_parse_date date_str = Raise e ->
        exists cause,
          e = Exn ValueError
                ("Invalid date format: " +:+ date_str +:+ ". Error: " +:+ cause)).
Proof.
  unfold debug_parse_date, parse_date.
  match goal with
  | |- context [try_except ?b _] => destruct b as [iso0|e0]
  end; cbn [try_except try_except_in].
  - split; [tauto|]. split.
    + split; intros [e H]; discriminate H.
    + intros e H. discriminate H.
  - split; [|split].
    + intros iso. split; [discriminate|].
      destruct (is_value_or_index_error (exn_kind e0)); discriminate.
    + split; intros _; [|eauto].
      destruct (is_value_or_index_error (exn_kind e0)); eauto.
    + intros e [= <-]. eauto.
Qed.

Lemma log_test_success (clock : nat -> string) (results : list log_entry)
    (test_name : string) (success : bool) (details : string) :
  map entry_success (log_test clock results test_name success details)
  = map entry_success results ++ [success].
Proof. unfold log_test. rewrite List.map_app. reflexivity. Qed.

Lemma log_test_details (clock : nat -> string) (results : list log_entry)
    (test_name : string) (success : bool) (details : string) :
  map entry_details (log_test clock results test_name success details)
  = map entry_details results ++ [details].
Proof. unfold log_test. rewrite List.map_app. reflexivity. Qed.

(** One turn of the loop on a case whose token is turned into a date. *)
Lemma run_date_case_returned (clock : nat -> string) (results : list log_entry)
    (input : string) (expected : option string) (description result : string) :
  debug_parse_date input = Return result ->
  run_date_case clock results (mkCase input expected description)
  = log_test clock results ("Date Parse: " +:+ description)
      (match expected with
       | None => false
       | Some expected => String.eqb result expected
       end)
      (match expected with
       | None => "Should have failed but got: " +:+ result
       | Some expected =>
           if String.eqb result expected then ""
           else "Expected " +:+ expected +:+ ", got " +:+ result
       end).
Proof.
  intros H. unfold run_date_case.
  cbn [case_input case_expected case_description]. rewrite H.
  destruct expected as [expected|]; [|reflexivity].
  destruct (String.eqb result expected); reflexivity.
Qed.

(** One turn of the loop on a case whose token is refused. *)
Lemma run_date_case_raised (clock : nat -> string) (results : list log_entry)
    (input : string) (expected : option string) (description : string)
    (e : exn) :
  debug_parse_date input = Raise e ->
  run_date_case clock results (mkCase input expected description)
  = log_test clock results ("Date Parse: " +:+ description)
      (match expected with None => true | Some _ => false end)
      (match expected with
       | None => "Correctly failed"
       | Some _ => exn_str e
       end).
Proof.
  intros H. unfold run_date_case.
  cbn [case_input case_expected case_description]. rewrite H.
  destruct expected; reflexivity.
Qed.

Lemma debug_parse_date_table :
  debug_parse_date "01012024" = Return "2024-01-01"
  /\ debug_parse_date "12312023" = Return "2023-12-31"
  /\ debug_parse_date "02292024" = Return "2024-02-29"
  /\ (exists e, debug_parse_date "13012024" = Raise e)
  /\ (exists e, debug_parse_date "01322024" = Raise e)
  /\ debug_parse_date "010124" = Return "24-01-01"
  /\ debug_parse_date "0101202" = Return "202-01-01"
  /\ (exists e, debug_parse_date "abc12024" = Raise e).
Proof.
  repeat split; try (vm_compute; reflexivity);
    eexists; vm_compute; reflexivity.
Qed.

(** X25: run on its own table of eight cases, from any state of the log,
    [test_date_parsing] adds eight entries: the three valid dates and the
    three cases with a wrong month, a wrong day and letters pass, and the
    two cases with a token too short fail, a date having been returned for
    each. *)
Theorem test_date_parsing_outcome (clock : nat -> string)
    (results : list log_entry) :
  map entry_success (test_date_parsing clock results)
  = map entry_success results
    ++ [true; true; true; true; true; false; false; true]
  /\ map entry_details (skipn (length results + 5) (test_date_parsing clock results))
     = [ "Should have failed but got: 24-01-01";
         "Should have failed but got: 202-01-01";
         "Correctly failed" ].
Proof.
  destruct debug_parse_date_table
    as (T1 & T2 & T3 & [e4 T4] & [e5 T5] & T6 & T7 & [e8 T8]).
  unfold test_date_parsing, date_test_cases. cbn [fold_left].
  rewrite (run_date_case_returned clock _ _ _ _ _ T1).
  rewrite (run_date_case_returned clock _ _ _ _ _ T2).
  rewrite (run_date_case_returned clock _ _ _ _ _ T3).
  rewrite (run_date_case_raised clock _ _ _ _ _ T4).
  rewrite (run_date_case_raised clock _ _ _ _ _ T5).
  rewrite (run_date_case_returned clock _ _ _ _ _ T6).
  rewrite (run_date_case_returned clock _ _ _ _ _ T7).
  rewrite (run_date_case_raised clock _ _ _ _ _ T8).
  change (String.eqb "2024-01-01" "2024-01-01") with true.
  change (String.eqb "2023-12-31" "2023-12-31") with true.
  change (String.eqb "2024-02-29" "2024-02-29") with true.
  cbv iota. split.
  - rewrite !log_test_success, <- !app_assoc. reflexivity.
  - rewrite <- List.skipn_map, !log_test_details, <- !app_assoc. cbn [app].
    rewrite List.skipn_app, List.skipn_all2 by (rewrite List.length_map; lia).
    rewrite List.length_map.
    replace (length results + 5 - length results)%nat with 5%nat by lia.
    reflexivity.
Qed.

(** * The further facts on the sample market *)

Lemma get_stock_data_refused_date_witness :
  get_stock_data Sample.history Sample.mean Sample.mean_int
    "AAPL" "Apple" "13012024" "01312024"
  = Return {[ "error" := VStr ("Failed to fetch data: "
                +:+ exn_str (invalid_date_format "13012024"));
              "ticker" := VStr "AAPL";
              "name" := VStr "Apple" ]}.
Proof.
  exact (get_stock_data_refused_date Sample.history Sample.mean Sample.mean_int
           "AAPL" "Apple" "13012024" "01312024"
           (invalid_date_format "13012024") (or_introl eq_refl)).
Defined.

Example get_stock_data_refused_date_text :
  exists d,
    get_stock_data Sample.history Sample.mean Sample.mean_int
      "AAPL" "Apple" "13012024" "01312024" = Return d
    /\ d !! "error"
       = Some (VStr "Failed to fetch data: Invalid date format: 13012024. Expected mmddyyyy format.").
Proof. eexists. split; vm_compute; reflexivity. Qed.

Example get_stock_data_fetch_failure_sample :
  get_stock_data Sample.history Sample.mean Sample.mean_int
    "GONE" "Delisted" "01012024" "01312024"
  = Return {[ "error" := VStr ("Failed to fetch data: "
                +:+ "No timezone found, symbol may be delisted");
              "ticker" := VStr "GONE";
              "name" := VStr "Delisted" ]}.
Proof. reflexivity. Qed.

Lemma get_stock_data_extremes_witness :
  exists stats hi lo,
    get_stock_data Sample.history Sample.mean Sample.mean_int
      "ACME" "Acme Corp" "01012024" "01312024" = Return stats
    /\ In hi Sample.acme /\ In lo Sample.acme
    /\ stats !! "highest_price" = Some (VFloat (Np.round (Pd.High hi) 2))
    /\ (forall r, In r Sample.acme -> (Pd.High r <=? Pd.High hi)%float = true)
    /\ stats !! "lowest_price" = Some (VFloat (Np.round (Pd.Low lo) 2))
    /\ (forall r, In r Sample.acme -> (Pd.Low lo <=? Pd.Low r)%float = true).
Proof.
  apply (get_stock_data_extremes Sample.history Sample.mean Sample.mean_int
           "ACME" "Acme Corp" "01012024" "01312024" "2024-01-01" "2024-01-31"
           Sample.acme 2000).
  - reflexivity.
  - reflexivity.
  - reflexivity.
  - discriminate.
  - reflexivity.
  - repeat constructor.
  - repeat constructor.
Defined.


Lemma plot_stock_price_length_witness :
  exists text,
    plot_stock_price Sample.history Sample.render_png
      "ACME" "Acme Corp" "01012024" "01312024" = Return text
    /\ String.length text = (22 + 4 * ((length Sample.png_signature + 2) / 3))%nat.
Proof.
  apply (plot_stock_price_length Sample.history Sample.render_png
           "ACME" "Acme Corp" "01012024" "01312024" "2024-01-01" "2024-01-31"
           Sample.acme Sample.png_signature).
  - reflexivity.
  - reflexivity.
  - reflexivity.
  - discriminate.
  - reflexivity.
Defined.


Lemma compare_stocks_same_ticker_witness :
  exists result,
    compare_stocks Sample.history Sample.mean Sample.mean_int
      "AAPL" "AAPL" "01012024" "01312024" = Return result
    /\ result !! "better_performer" = Some (VStr "AAPL")
    /\ result !! "performance_difference" = Some (VFloat 0).
Proof.
  exact (compare_stocks_same_ticker Sample.history Sample.mean Sample.mean_int
           "AAPL" "01012024" "01312024" Sample.aapl_stats 12
           eq_refl eq_refl eq_refl eq_refl).
Defined.

Lemma compare_stocks_swapped_witness :
  exists forth back,
    compare_stocks Sample.history Sample.mean Sample.mean_int
      "AAPL" "MSFT" "01012024" "01312024" = Return forth
    /\ compare_stocks Sample.history Sample.mean Sample.mean_int
         "MSFT" "AAPL" "01012024" "01312024" = Return back
    /\ ((8 <? 12)%float = true \/ (12 <? 8)%float = true ->
        forth !! "better_performer" = back !! "better_performer"
        /\ forth !! "performance_difference" = back !! "performance_difference")
    /\ ((12 =? 8)%float = true ->
        forth !! "better_performer" = Some (VStr "MSFT")
        /\ back !! "better_performer" = Some (VStr "AAPL")).
Proof.
  exact (compare_stocks_swapped Sample.history Sample.mean Sample.mean_int
           "AAPL" "MSFT" "01012024" "01312024"
           Sample.aapl_stats Sample.msft_stats 12 8
           eq_refl eq_refl eq_refl eq_refl eq_refl eq_refl).
Defined.

Example compare_stocks_swapped_sample :
  exists forth back,
    compare_stocks Sample.history Sample.mean Sample.mean_int
      "AAPL" "MSFT" "01012024" "01312024" = Return forth
    /\ compare_stocks Sample.history Sample.mean Sample.mean_int
         "MSFT" "AAPL" "01012024" "01312024" = Return back
    /\ forth !! "better_performer" = Some (VStr "AAPL")
    /\ back !! "better_performer" = Some (VStr "AAPL")
    /\ forth !! "performance_difference" = Some (VFloat 4)
    /\ back !! "performance_difference" = Some (VFloat 4).
Proof. do 2 eexists. repeat split; vm_compute; reflexivity. Qed.

Lemma compare_stocks_refused_date_witness :
  compare_stocks Sample.history Sample.mean Sample.mean_int
    "AAPL" "MSFT" "01012024" "02302024"
  = Return {[ "error" := VStr "Failed to get data for one or both stocks";
              "stock1_error" := VStr ("Failed to fetch data: "
                +:+ exn_str (invalid_date_format "02302024"));
              "stock2_error" := VStr ("Failed to fetch data: "
                +:+ exn_str (invalid_date_format "02302024")) ]}.
Proof.
  exact (compare_stocks_refused_date Sample.history Sample.mean Sample.mean_int
           "AAPL" "MSFT" "01012024" "02302024"
           (invalid_date_format "02302024")
           (or_intror (conj (ex_intro _ "2024-01-01" eq_refl) eq_refl))).
Defined.


Lemma read_stock_resource_unformattable_cap_witness :
  (VNone = VNone ->
   read_stock_resource Cases.ticker_info Sample.float_str Sample.float_grouped
     Sample.dict_str "NONE"
   = Return "Error fetching stock resource: unsupported format string passed to NoneType.__format__")
  /\ ((exists s, VNone = VStr s) ->
      read_stock_resource Cases.ticker_info Sample.float_str Sample.float_grouped
        Sample.dict_str "NONE"
      = Return "Error fetching stock resource: Cannot specify ',' with 's'.").
Proof.
  exact (read_stock_resource_unformattable_cap Cases.ticker_info Sample.float_str
           Sample.float_grouped Sample.dict_str "NONE" Cases.none_cap_info VNone
           eq_refl eq_refl).
Defined.

Example read_stock_resource_fetch_failure_sample :
  read_stock_resource Cases.ticker_info Sample.float_str Sample.float_grouped
    Sample.dict_str "GONE"
  = Return ("Error fetching stock resource: " +:+ "HTTP Error 404: Not Found").
Proof. reflexivity. Qed.

(** The demo on the listing without rows: one line, then the missing key. *)
Example demo_show_stock_data_no_data :
  demo_show_stock_data Sample.float_str Sample.dict_str Sample.empty_stats
  = (["   📈 EMPTY (EMPTY)"], Some (Exn KeyError "'opening_price'")).
Proof. vm_compute. reflexivity. Qed.

Example demo_show_stock_data_sample :
  demo_show_stock_data Sample.float_str Sample.dict_str Sample.aapl_stats
  = (["   📈 AAPL (AAPL)";
      "   💰 Opening Price: $250.0";
      "   💰 Closing Price: $280.0";
      "   📊 Price Change: $30.0";
      "   📈 Percentage Change: 12.0%";
      "   📊 Data Points: 2"], None).
Proof. vm_compute. reflexivity. Qed.
